(** * The collaborative workflow engine of the DOB-MVP backend

    A shallow embedding of [backend/app/core/workflow.py] (class
    [WorkflowEngine]) and the properties of its state machine: task
    dispatch, dependency gating, multi-party approval, delegation,
    cancellation, template instantiation and snapshot export/import.

    Conventions of the embedding.

    - Python dictionaries with a fixed set of keys (workflow, task,
      approval, history event) are records; the three [str]-valued
      enumerations are inductive types.
    - The registries of the engine ([self.workflows],
      [self.workflow_templates], [self.task_handlers]) are finite maps
      keyed by strings.
    - A task's ["data"] entry is a mutable dictionary that may be shared
      between a template and the workflows made from it, so tasks hold a
      location of an explicit heap of dictionaries.  A snapshot (the
      result of a JSON round trip) holds the dictionary itself.
    - [uuid.uuid4()] is a source of identifiers: the k-th draw of the
      process is [uuid4 k], and the engine state counts the draws.
    - Exceptions are results: an operation yields [Ok], or [Raise] with
      the state reached when the exception left the operation.
    - [_process_next_task], [_execute_task] and [complete_task] call each
      other; the nesting depth of [_process_next_task] is bounded by a
      fuel argument, and [OutOfFuel] is a result of its own.
    - Wall-clock readings ([datetime.now()]: the fields created_at,
      updated_at, completed_at and an event's timestamp), logging, the
      participants operations, and the external collaborators reached
      through [_trigger_event], [_notify_assignee] and [_notify_approver]
      (whose exceptions the engine swallows) leave no trace in the
      engine state and are not part of it.  A task handler is a function
      of its three arguments that returns a result or raises. *)

From stdpp Require Import gmap strings list pretty.
From Stdlib Require Import ZArith.

Set Default Proof Using "Type".
Open Scope string_scope.

(** ** JSON-like values *)

#[warnings="-register-all"]
Inductive value :=
| VNone
| VBool (b : bool)
| VInt (n : Z)
| VStr (s : string)
| VList (l : list value)
| VDict (d : list (string * value)).

(** A dictionary with string keys, in insertion order. *)
Abbreviation dict := (list (string * value)).

Fixpoint dict_get (k : string) (d : dict) : option value :=
  match d with
  | [] => None
  | (k', v) :: rest => if decide (k' = k) then Some v else dict_get k rest
  end.

(** [d[k] = v]: replaces the binding of [k], or adds one at the end. *)
Fixpoint dict_set (k : string) (v : value) (d : dict) : dict :=
  match d with
  | [] => [(k, v)]
  | (k', v') :: rest =>
      if decide (k' = k) then (k, v) :: rest else (k', v') :: dict_set k v rest
  end.

(** Locations of the heap of task-data dictionaries. *)
Abbreviation loc := nat (only parsing).

(** ** Enumerations *)

Module WorkflowStatus.
Inductive t := CREATED | RUNNING | WAITING | COMPLETED | FAILED | CANCELLED.
#[global] Instance eq_dec : EqDecision t.
Proof. solve_decision. Defined.
Definition value (s : t) : string :=
  match s with
  | CREATED => "created" | RUNNING => "running" | WAITING => "waiting"
  | COMPLETED => "completed" | FAILED => "failed" | CANCELLED => "cancelled"
  end.
End WorkflowStatus.

Module TaskStatus.
Inductive t :=
| PENDING | RUNNING | WAITING_APPROVAL | WAITING_INPUT
| COMPLETED | FAILED | CANCELLED | SKIPPED.
#[global] Instance eq_dec : EqDecision t.
Proof. solve_decision. Defined.
Definition value (s : t) : string :=
  match s with
  | PENDING => "pending" | RUNNING => "running"
  | WAITING_APPROVAL => "waiting_approval" | WAITING_INPUT => "waiting_input"
  | COMPLETED => "completed" | FAILED => "failed"
  | CANCELLED => "cancelled" | SKIPPED => "skipped"
  end.
End TaskStatus.

Module ApprovalStatus.
Inductive t := PENDING | APPROVED | REJECTED | DELEGATED.
#[global] Instance eq_dec : EqDecision t.
Proof. solve_decision. Defined.
Definition value (s : t) : string :=
  match s with
  | PENDING => "pending" | APPROVED => "approved"
  | REJECTED => "rejected" | DELEGATED => "delegated"
  end.
End ApprovalStatus.

(** ** Records *)

Module Approval.
Record t := mk {
  id : string;
  approver : string;
  status : ApprovalStatus.t;
  comment : string
}.
Definition set_id (v : string) (a : t) : t :=
  mk v (approver a) (status a) (comment a).
Definition set_status (v : ApprovalStatus.t) (a : t) : t :=
  mk (id a) (approver a) v (comment a).
Definition set_comment (v : string) (a : t) : t :=
  mk (id a) (approver a) (status a) v.
End Approval.

Module Task.
Record t (D : Type) := mk {
  id : string;
  name : string;
  description : string;
  type : string;
  status : TaskStatus.t;
  assignee : option string;
  approvers : list string;
  data : D;
  dependencies : list string;
  result : value;
  approvals : list Approval.t
}.
Arguments mk {D}.
Arguments id {D}.
Arguments name {D}.
Arguments description {D}.
Arguments type {D}.
Arguments status {D}.
Arguments assignee {D}.
Arguments approvers {D}.
Arguments data {D}.
Arguments dependencies {D}.
Arguments result {D}.
Arguments approvals {D}.

Section Setters.
Context {D : Type}.
Implicit Type x : t D.
Definition set_id (v : string) x : t D :=
  mk v (name x) (description x) (type x) (status x) (assignee x)
     (approvers x) (data x) (dependencies x) (result x) (approvals x).
Definition set_status (v : TaskStatus.t) x : t D :=
  mk (id x) (name x) (description x) (type x) v (assignee x)
     (approvers x) (data x) (dependencies x) (result x) (approvals x).
Definition set_dependencies (v : list string) x : t D :=
  mk (id x) (name x) (description x) (type x) (status x) (assignee x)
     (approvers x) (data x) v (result x) (approvals x).
Definition set_result (v : value) x : t D :=
  mk (id x) (name x) (description x) (type x) (status x) (assignee x)
     (approvers x) (data x) (dependencies x) v (approvals x).
Definition set_approvals (v : list Approval.t) x : t D :=
  mk (id x) (name x) (description x) (type x) (status x) (assignee x)
     (approvers x) (data x) (dependencies x) (result x) v.
End Setters.

(** The same task with another representation of its data. *)
Definition map_data {D E : Type} (f : D -> E) (x : t D) : t E :=
  mk (id x) (name x) (description x) (type x) (status x) (assignee x)
     (approvers x) (f (data x)) (dependencies x) (result x) (approvals x).
End Task.

Module HistoryEvent.
Record t := mk {
  id : string;
  type : string;
  data : dict
}.
End HistoryEvent.

Module Workflow.
Record t (D : Type) := mk {
  id : string;
  template_id : string;
  name : string;
  description : string;
  status : WorkflowStatus.t;
  tasks : list (Task.t D);
  data : value;
  current_task_index : nat;
  participants : list value;
  history : list HistoryEvent.t
}.
Arguments mk {D}.
Arguments id {D}.
Arguments template_id {D}.
Arguments name {D}.
Arguments description {D}.
Arguments status {D}.
Arguments tasks {D}.
Arguments data {D}.
Arguments current_task_index {D}.
Arguments participants {D}.
Arguments history {D}.

Section Setters.
Context {D : Type}.
Implicit Type x : t D.
Definition set_id (v : string) x : t D :=
  mk v (template_id x) (name x) (description x) (status x) (tasks x)
     (data x) (current_task_index x) (participants x) (history x).
Definition set_status (v : WorkflowStatus.t) x : t D :=
  mk (id x) (template_id x) (name x) (description x) v (tasks x)
     (data x) (current_task_index x) (participants x) (history x).
Definition set_tasks (v : list (Task.t D)) x : t D :=
  mk (id x) (template_id x) (name x) (description x) (status x) v
     (data x) (current_task_index x) (participants x) (history x).
Definition set_current_task_index (v : nat) x : t D :=
  mk (id x) (template_id x) (name x) (description x) (status x) (tasks x)
     (data x) v (participants x) (history x).
Definition set_history (v : list HistoryEvent.t) x : t D :=
  mk (id x) (template_id x) (name x) (description x) (status x) (tasks x)
     (data x) (current_task_index x) (participants x) v.
End Setters.

Definition map_data {D E : Type} (f : D -> E) (x : t D) : t E :=
  mk (id x) (template_id x) (name x) (description x) (status x)
     (Task.map_data f <$> tasks x)
     (data x) (current_task_index x) (participants x) (history x).
End Workflow.

(** A task of a template: every key is optional, as [create_workflow]
    reads each with [dict.get] and a default. *)
Module TaskTemplate.
Record t := mk {
  name : option string;
  description : option string;
  type : option string;
  assignee : option string;
  approvers : option (list string);
  data : option loc;
  dependencies : option (list string)
}.
End TaskTemplate.

Module WorkflowTemplate.
Record t := mk {
  name : option string;
  description : option string;
  tasks : option (list TaskTemplate.t);
  participants : option (list value)
}.
End WorkflowTemplate.

(** ** Exceptions and handlers *)

Inductive exn :=
| ValueError (msg : string)
| KeyError (key : string)
| IndexError
| HandlerException (msg : string).

(** [str(e)]. *)
Definition str_exn (e : exn) : string :=
  match e with
  | ValueError msg => msg
  | KeyError key => "'" +:+ key +:+ "'"
  | IndexError => "list index out of range"
  | HandlerException msg => msg
  end.

(** [handler(workflow_id, task_id, task["data"])]: the result, or the
    message of the exception it raises. *)
Abbreviation Handler := (string -> string -> dict -> value + string)%type.

(** ** The engine state *)

Record Engine := mkEngine {
  workflows : gmap string (Workflow.t loc);
  workflow_templates : gmap string WorkflowTemplate.t;
  task_handlers : gmap string Handler;
  heap : list dict;
  uuid_draws : nat
}.

Definition set_workflows (v : gmap string (Workflow.t loc)) (e : Engine) : Engine :=
  mkEngine v (workflow_templates e) (task_handlers e) (heap e) (uuid_draws e).
Definition set_workflow_templates (v : gmap string WorkflowTemplate.t) (e : Engine) : Engine :=
  mkEngine (workflows e) v (task_handlers e) (heap e) (uuid_draws e).
Definition set_task_handlers (v : gmap string Handler) (e : Engine) : Engine :=
  mkEngine (workflows e) (workflow_templates e) v (heap e) (uuid_draws e).
Definition set_heap (v : list dict) (e : Engine) : Engine :=
  mkEngine (workflows e) (workflow_templates e) (task_handlers e) v (uuid_draws e).
Definition set_uuid_draws (v : nat) (e : Engine) : Engine :=
  mkEngine (workflows e) (workflow_templates e) (task_handlers e) (heap e) v.

(** [WorkflowEngine.__init__]. *)
Definition init : Engine := mkEngine ∅ ∅ ∅ [] 0.

(** ** The monad of engine operations *)

Inductive Res (A : Type) :=
| Ok (a : A) (e : Engine)
| Raise (x : exn) (e : Engine)
| OutOfFuel.
Arguments Ok {A}.
Arguments Raise {A}.
Arguments OutOfFuel {A}.

Definition M (A : Type) : Type := Engine -> Res A.

Definition ret {A} (a : A) : M A := fun e => Ok a e.

Definition bind {A B} (m : M A) (k : A -> M B) : M B :=
  fun e =>
    match m e with
    | Ok a e' => k a e'
    | Raise x e' => Raise x e'
    | OutOfFuel => OutOfFuel
    end.

Definition raise {A} (x : exn) : M A := fun e => Raise x e.

Definition out_of_fuel {A} : M A := fun _ => OutOfFuel.

(** [try: m  except Exception as x: h x]. *)
Definition try_except {A} (m : M A) (h : exn -> M A) : M A :=
  fun e =>
    match m e with
    | Raise x e' => h x e'
    | r => r
    end.

Definition gets {A} (f : Engine -> A) : M A := fun e => Ok (f e) e.

Definition modify (f : Engine -> Engine) : M unit := fun e => Ok tt (f e).

Notation "x <~ m ;; k" := (bind m (fun x => k))
  (at level 100, m at next level, right associativity).
Notation "m ;;; k" := (bind m (fun _ => k))
  (at level 100, right associativity).

(** [for x in l: f x], collecting the values. *)
Fixpoint for_each {A B} (f : A -> M B) (l : list A) : M (list B) :=
  match l with
  | [] => ret []
  | x :: rest => y <~ f x ;; ys <~ for_each f rest ;; ret (y :: ys)
  end.

(** ** Access to the stored objects

    A Python reference to a workflow, a task or an approval is rendered by
    the workflow id and the positions in the task and approval lists: the
    engine never reorders these lists nor removes from them. *)

(** [if workflow_id not in self.workflows: raise ValueError(...)], then
    [self.workflows[workflow_id]]. *)
Definition lookup_workflow (workflow_id : string) : M (Workflow.t loc) :=
  fun e =>
    match workflows e !! workflow_id with
    | Some w => Ok w e
    | None => Raise (ValueError ("Workflow nicht gefunden: " +:+ workflow_id)) e
    end.

(** [self.workflows[workflow_id]] without a membership test. *)
Definition the_workflow (workflow_id : string) : M (Workflow.t loc) :=
  fun e =>
    match workflows e !! workflow_id with
    | Some w => Ok w e
    | None => Raise (KeyError workflow_id) e
    end.

(** In-place mutation of a stored workflow, of its task at position [i],
    and of that task's approval at position [j]. *)
Definition modify_workflow (workflow_id : string)
    (f : Workflow.t loc -> Workflow.t loc) : M unit :=
  modify (fun e => set_workflows (alter f workflow_id (workflows e)) e).

Definition modify_task (workflow_id : string) (i : nat)
    (f : Task.t loc -> Task.t loc) : M unit :=
  modify_workflow workflow_id
    (fun w => Workflow.set_tasks (alter f i (Workflow.tasks w)) w).

Definition modify_approval (workflow_id : string) (i j : nat)
    (f : Approval.t -> Approval.t) : M unit :=
  modify_task workflow_id i
    (fun t => Task.set_approvals (alter f j (Task.approvals t)) t).

(** The current state of the task object at position [i]. *)
Definition the_task (workflow_id : string) (i : nat) : M (Task.t loc) :=
  w <~ the_workflow workflow_id ;;
  match Workflow.tasks w !! i with
  | Some t => ret t
  | None => raise IndexError
  end.

(** [for i, t in enumerate(tasks): if t["id"] == task_id: ...; break]. *)
Definition find_task {D} (task_id : string) (tasks : list (Task.t D))
  : option (nat * Task.t D) :=
  list_find (fun t => Task.id t = task_id) tasks.

Definition find_approval (approval_id : string) (approvals : list Approval.t)
  : option (nat * Approval.t) :=
  list_find (fun a => Approval.id a = approval_id) approvals.

(** The dictionary stored at a location. *)
Definition heap_get (h : list dict) (l : loc) : dict := default [] (h !! l).

(** A fresh dictionary object. *)
Definition alloc (d : dict) : M loc :=
  fun e => Ok (length (heap e)) (set_heap (heap e ++ [d]) e).

(** Payloads of history events. *)
Definition VStrs (l : list string) : value := VList (VStr <$> l).

Section WorkflowEngine.

(** The k-th identifier drawn from [uuid.uuid4()]. *)
Variable uuid4 : nat -> string.

(** [str(uuid.uuid4())]. *)
Definition new_uuid : M string :=
  fun e => Ok (uuid4 (uuid_draws e)) (set_uuid_draws (S (uuid_draws e)) e).

(** *** Registration *)

Definition register_workflow_template (template_id : string)
    (template : WorkflowTemplate.t) : M unit :=
  modify (fun e =>
    set_workflow_templates (<[template_id := template]> (workflow_templates e)) e).

Definition register_task_handler (task_type : string) (handler : Handler)
  : M unit :=
  modify (fun e => set_task_handlers (<[task_type := handler]> (task_handlers e)) e).

(** *** History and events *)

Definition _add_history_event (workflow_id event_type : string)
    (event_data : dict) : M unit :=
  _ <~ the_workflow workflow_id ;;
  event_id <~ new_uuid ;;
  modify_workflow workflow_id (fun w =>
    Workflow.set_history
      (Workflow.history w ++ [HistoryEvent.mk event_id event_type event_data]) w).

(** The listeners are external; an exception of a listener is caught. *)
Definition _trigger_event (event_type : string) (event_data : dict) : M unit :=
  ret tt.

(** The notification handlers are external; their exceptions are caught. *)
Definition _notify_assignee (workflow_id task_id : string) : M unit :=
  _ <~ the_workflow workflow_id ;; ret tt.

Definition _notify_approver (workflow_id task_id approval_id : string) : M unit :=
  _ <~ the_workflow workflow_id ;; ret tt.

(** *** create_workflow *)

Definition new_approval (approver : string) : M Approval.t :=
  approval_id <~ new_uuid ;;
  ret (Approval.mk approval_id approver ApprovalStatus.PENDING "").

Definition new_task (task_template : TaskTemplate.t) : M (Task.t loc) :=
  task_id <~ new_uuid ;;
  (* task_template.get("data", {}): the template's own dictionary object
     if it has one, else a new empty dictionary *)
  data <~ match TaskTemplate.data task_template with
          | Some l => ret l
          | None => alloc []
          end ;;
  let approvers := default [] (TaskTemplate.approvers task_template) in
  approvals <~ for_each new_approval approvers ;;
  ret (Task.mk task_id
         (default "Unbenannte Task" (TaskTemplate.name task_template))
         (default "" (TaskTemplate.description task_template))
         (default "manual" (TaskTemplate.type task_template))
         TaskStatus.PENDING
         (TaskTemplate.assignee task_template)
         approvers
         data
         (default [] (TaskTemplate.dependencies task_template))
         VNone
         approvals).

Definition create_workflow (template_id : string) (data : value) : M string :=
  templates <~ gets workflow_templates ;;
  match templates !! template_id with
  | None => raise (ValueError ("Workflow-Vorlage nicht gefunden: " +:+ template_id))
  | Some template =>
      workflow_id <~ new_uuid ;;
      tasks <~ for_each new_task (default [] (WorkflowTemplate.tasks template)) ;;
      let workflow :=
        Workflow.mk workflow_id template_id
          (default "Unbenannter Workflow" (WorkflowTemplate.name template))
          (default "" (WorkflowTemplate.description template))
          WorkflowStatus.CREATED
          tasks
          data
          0
          (default [] (WorkflowTemplate.participants template))
          [] in
      modify (fun e => set_workflows (<[workflow_id := workflow]> (workflows e)) e) ;;;
      _add_history_event workflow_id "workflow_created"
        [("template_id", VStr template_id);
         ("workflow_id", VStr workflow_id);
         ("workflow_name", VStr (Workflow.name workflow))] ;;;
      _trigger_event "workflow_created"
        [("workflow_id", VStr workflow_id);
         ("template_id", VStr template_id);
         ("data", data)] ;;;
      ret workflow_id
  end.

(** *** Task processing *)

(** The dependency check of [_process_next_task]: every id of the list
    names a task of the workflow (the first with that id) whose status
    is COMPLETED. *)
Definition dependencies_met (tasks : list (Task.t loc)) (deps : list string) : bool :=
  forallb (fun dep_id =>
    match find_task dep_id tasks with
    | None => false
    | Some (_, dep_task) =>
        bool_decide (Task.status dep_task = TaskStatus.COMPLETED)
    end) deps.

(** The block that marks the workflow as failed: it ends the rejection
    branch of [approve_task] and both failure branches of
    [_execute_task]. *)
Definition mark_workflow_failed (workflow_id workflow_name task_name : string)
  : M unit :=
  modify_workflow workflow_id (Workflow.set_status WorkflowStatus.FAILED) ;;;
  _add_history_event workflow_id "workflow_failed"
    [("workflow_id", VStr workflow_id);
     ("workflow_name", VStr workflow_name);
     ("reason", VStr ("Task fehlgeschlagen: " +:+ task_name))] ;;;
  _trigger_event "workflow_failed"
    [("workflow_id", VStr workflow_id);
     ("reason", VStr ("Task fehlgeschlagen: " +:+ task_name))].

(** The block that marks a task as failed, with its history event. *)
Definition mark_task_failed (workflow_id : string) (i : nat)
    (task_id task_name reason : string) : M unit :=
  modify_task workflow_id i (Task.set_status TaskStatus.FAILED) ;;;
  _add_history_event workflow_id "task_failed"
    [("workflow_id", VStr workflow_id);
     ("task_id", VStr task_id);
     ("task_name", VStr task_name);
     ("reason", VStr reason)] ;;;
  _trigger_event "task_failed"
    [("workflow_id", VStr workflow_id);
     ("task_id", VStr task_id);
     ("reason", VStr reason)].

(** [complete_task], over the [_process_next_task] it calls. *)
Definition complete_task_body (process_next : string -> M unit)
    (workflow_id task_id : string) (result : value) : M (Workflow.t loc) :=
  workflow <~ lookup_workflow workflow_id ;;
  match find_task task_id (Workflow.tasks workflow) with
  | None => raise (ValueError ("Task nicht gefunden: " +:+ task_id))
  | Some (task_index, task) =>
      if bool_decide (Task.status task = TaskStatus.RUNNING)
         || bool_decide (Task.status task = TaskStatus.WAITING_INPUT)
      then
        modify_task workflow_id task_index
          (fun t => Task.set_result result (Task.set_status TaskStatus.COMPLETED t)) ;;;
        _add_history_event workflow_id "task_completed"
          [("workflow_id", VStr workflow_id);
           ("task_id", VStr task_id);
           ("task_name", VStr (Task.name task))] ;;;
        _trigger_event "task_completed"
          [("workflow_id", VStr workflow_id);
           ("task_id", VStr task_id);
           ("result", result)] ;;;
        match Task.approvers task with
        | _ :: _ =>
            modify_task workflow_id task_index
              (Task.set_status TaskStatus.WAITING_APPROVAL) ;;;
            for_each (fun a => _notify_approver workflow_id task_id (Approval.id a))
              (Task.approvals task) ;;;
            _add_history_event workflow_id "task_waiting_approval"
              [("workflow_id", VStr workflow_id);
               ("task_id", VStr task_id);
               ("task_name", VStr (Task.name task));
               ("approvers", VStrs (Approval.approver <$> Task.approvals task))] ;;;
            _trigger_event "task_waiting_approval"
              [("workflow_id", VStr workflow_id);
               ("task_id", VStr task_id);
               ("approvers", VStrs (Approval.approver <$> Task.approvals task))]
        | [] =>
            modify_workflow workflow_id
              (Workflow.set_current_task_index (task_index + 1)) ;;;
            process_next workflow_id
        end ;;;
        the_workflow workflow_id
      else
        raise (ValueError ("Task kann nicht abgeschlossen werden, Status: "
                           +:+ TaskStatus.value (Task.status task)))
  end.

(** [_execute_task], over the [complete_task] it calls. *)
Definition execute_task_body
    (complete : string -> string -> value -> M (Workflow.t loc))
    (workflow_id task_id : string) : M unit :=
  workflow <~ the_workflow workflow_id ;;
  match find_task task_id (Workflow.tasks workflow) with
  | None => ret tt
  | Some (i, task) =>
      handlers <~ gets task_handlers ;;
      match handlers !! Task.type task with
      | Some handler =>
          try_except
            (h <~ gets heap ;;
             match handler workflow_id task_id (heap_get h (Task.data task)) with
             | inl result => complete workflow_id task_id result ;;; ret tt
             | inr msg => raise (HandlerException msg)
             end)
            (fun e =>
               mark_task_failed workflow_id i task_id (Task.name task) (str_exn e) ;;;
               mark_workflow_failed workflow_id (Workflow.name workflow) (Task.name task))
      | None =>
          if bool_decide (Task.type task = "manual") then
            match Task.assignee task with
            | Some (String _ _) => _notify_assignee workflow_id task_id
            | _ => ret tt
            end
          else if bool_decide (Task.type task = "input") then
            modify_task workflow_id i (Task.set_status TaskStatus.WAITING_INPUT) ;;;
            _add_history_event workflow_id "task_waiting_input"
              [("workflow_id", VStr workflow_id);
               ("task_id", VStr task_id);
               ("task_name", VStr (Task.name task))] ;;;
            _trigger_event "task_waiting_input"
              [("workflow_id", VStr workflow_id); ("task_id", VStr task_id)] ;;;
            match Task.assignee task with
            | Some (String _ _) => _notify_assignee workflow_id task_id
            | _ => ret tt
            end
          else
            mark_task_failed workflow_id i task_id (Task.name task)
              ("Unbekannter Task-Typ: " +:+ Task.type task) ;;;
            mark_workflow_failed workflow_id (Workflow.name workflow) (Task.name task)
      end
  end.

(** [_process_next_task], over the [_execute_task] it calls. *)
Definition process_next_task_body (execute : string -> string -> M unit)
    (workflow_id : string) : M unit :=
  workflow <~ the_workflow workflow_id ;;
  if bool_decide (length (Workflow.tasks workflow) <= Workflow.current_task_index workflow)
  then
    modify_workflow workflow_id (Workflow.set_status WorkflowStatus.COMPLETED) ;;;
    _add_history_event workflow_id "workflow_completed"
      [("workflow_id", VStr workflow_id);
       ("workflow_name", VStr (Workflow.name workflow))] ;;;
    _trigger_event "workflow_completed" [("workflow_id", VStr workflow_id)]
  else
    match Workflow.tasks workflow !! Workflow.current_task_index workflow with
    | None => raise IndexError
    | Some task =>
        if dependencies_met (Workflow.tasks workflow) (Task.dependencies task) then
          modify_task workflow_id (Workflow.current_task_index workflow)
            (Task.set_status TaskStatus.RUNNING) ;;;
          _add_history_event workflow_id "task_started"
            [("workflow_id", VStr workflow_id);
             ("task_id", VStr (Task.id task));
             ("task_name", VStr (Task.name task))] ;;;
          _trigger_event "task_started"
            [("workflow_id", VStr workflow_id); ("task_id", VStr (Task.id task))] ;;;
          execute workflow_id (Task.id task)
        else
          modify_workflow workflow_id (Workflow.set_status WorkflowStatus.WAITING) ;;;
          _add_history_event workflow_id "workflow_waiting"
            [("workflow_id", VStr workflow_id);
             ("workflow_name", VStr (Workflow.name workflow));
             ("reason", VStr "Abhängigkeiten nicht erfüllt")] ;;;
          _trigger_event "workflow_waiting"
            [("workflow_id", VStr workflow_id);
             ("reason", VStr "Abhängigkeiten nicht erfüllt")]
    end.

(** The three functions are mutually recursive; [fuel] bounds the number
    of nested calls of [_process_next_task]. *)
Fixpoint _process_next_task (fuel : nat) (workflow_id : string) : M unit :=
  match fuel with
  | 0 => out_of_fuel
  | S fuel' =>
      process_next_task_body
        (execute_task_body (complete_task_body (_process_next_task fuel')))
        workflow_id
  end.

Definition complete_task (fuel : nat) :=
  complete_task_body (_process_next_task fuel).

Definition _execute_task (fuel : nat) :=
  execute_task_body (complete_task fuel).

(** *** start_workflow *)

Definition start_workflow (fuel : nat) (workflow_id : string) : M (Workflow.t loc) :=
  workflow <~ lookup_workflow workflow_id ;;
  if bool_decide (Workflow.status workflow = WorkflowStatus.CREATED) then
    modify_workflow workflow_id (Workflow.set_status WorkflowStatus.RUNNING) ;;;
    _add_history_event workflow_id "workflow_started"
      [("workflow_id", VStr workflow_id);
       ("workflow_name", VStr (Workflow.name workflow))] ;;;
    _trigger_event "workflow_started" [("workflow_id", VStr workflow_id)] ;;;
    _process_next_task fuel workflow_id ;;;
    the_workflow workflow_id
  else
    raise (ValueError ("Workflow kann nicht gestartet werden, Status: "
                       +:+ WorkflowStatus.value (Workflow.status workflow))).

(** *** approve_task *)

(** The loop over the approvals that ends [approve_task]: it yields
    [(all_completed, any_rejected)], and stops at the first PENDING
    approval. *)
Fixpoint check_approvals (approvals : list Approval.t) (any_rejected : bool)
  : bool * bool :=
  match approvals with
  | [] => (true, any_rejected)
  | a :: rest =>
      if bool_decide (Approval.status a = ApprovalStatus.PENDING) then
        (false, any_rejected)
      else if bool_decide (Approval.status a = ApprovalStatus.REJECTED) then
        check_approvals rest true
      else
        check_approvals rest any_rejected
  end.

Definition approve_task (fuel : nat) (workflow_id task_id approval_id : string)
    (approved : bool) (comment : string) : M (Workflow.t loc) :=
  workflow <~ lookup_workflow workflow_id ;;
  match find_task task_id (Workflow.tasks workflow) with
  | None => raise (ValueError ("Task nicht gefunden: " +:+ task_id))
  | Some (task_index, task) =>
      if bool_decide (Task.status task = TaskStatus.WAITING_APPROVAL) then
        match find_approval approval_id (Task.approvals task) with
        | None => raise (ValueError ("Genehmigung nicht gefunden: " +:+ approval_id))
        | Some (j, approval) =>
            if bool_decide (Approval.status approval = ApprovalStatus.PENDING) then
              modify_approval workflow_id task_index j
                (fun a =>
                   Approval.set_comment comment
                     (Approval.set_status
                        (if approved then ApprovalStatus.APPROVED
                         else ApprovalStatus.REJECTED) a)) ;;;
              let event_type :=
                if approved then "task_approved" else "task_rejected" in
              _add_history_event workflow_id event_type
                [("workflow_id", VStr workflow_id);
                 ("task_id", VStr task_id);
                 ("task_name", VStr (Task.name task));
                 ("approver", VStr (Approval.approver approval));
                 ("comment", VStr comment)] ;;;
              _trigger_event event_type
                [("workflow_id", VStr workflow_id);
                 ("task_id", VStr task_id);
                 ("approver", VStr (Approval.approver approval));
                 ("comment", VStr comment)] ;;;
              task' <~ the_task workflow_id task_index ;;
              match check_approvals (Task.approvals task') false with
              | (true, true) =>
                  mark_task_failed workflow_id task_index task_id (Task.name task)
                    "Genehmigung abgelehnt" ;;;
                  mark_workflow_failed workflow_id (Workflow.name workflow)
                    (Task.name task)
              | (true, false) =>
                  modify_workflow workflow_id
                    (Workflow.set_current_task_index (task_index + 1)) ;;;
                  _process_next_task fuel workflow_id
              | (false, _) => ret tt
              end ;;;
              the_workflow workflow_id
            else
              raise (ValueError ("Genehmigung kann nicht aktualisiert werden, Status: "
                                 +:+ ApprovalStatus.value (Approval.status approval)))
        end
      else
        raise (ValueError ("Task benötigt keine Genehmigung, Status: "
                           +:+ TaskStatus.value (Task.status task)))
  end.

(** *** delegate_approval *)

Definition delegate_approval (workflow_id task_id approval_id new_approver : string)
    (comment : string) : M (Workflow.t loc) :=
  workflow <~ lookup_workflow workflow_id ;;
  match find_task task_id (Workflow.tasks workflow) with
  | None => raise (ValueError ("Task nicht gefunden: " +:+ task_id))
  | Some (task_index, task) =>
      if bool_decide (Task.status task = TaskStatus.WAITING_APPROVAL) then
        match find_approval approval_id (Task.approvals task) with
        | None => raise (ValueError ("Genehmigung nicht gefunden: " +:+ approval_id))
        | Some (j, approval) =>
            if bool_decide (Approval.status approval = ApprovalStatus.PENDING) then
              new_approval <~ new_approval new_approver ;;
              modify_approval workflow_id task_index j
                (fun a =>
                   Approval.set_comment comment
                     (Approval.set_status ApprovalStatus.DELEGATED a)) ;;;
              modify_task workflow_id task_index
                (fun t => Task.set_approvals (Task.approvals t ++ [new_approval]) t) ;;;
              _add_history_event workflow_id "approval_delegated"
                [("workflow_id", VStr workflow_id);
                 ("task_id", VStr task_id);
                 ("task_name", VStr (Task.name task));
                 ("old_approver", VStr (Approval.approver approval));
                 ("new_approver", VStr new_approver);
                 ("comment", VStr comment)] ;;;
              _trigger_event "approval_delegated"
                [("workflow_id", VStr workflow_id);
                 ("task_id", VStr task_id);
                 ("old_approver", VStr (Approval.approver approval));
                 ("new_approver", VStr new_approver);
                 ("comment", VStr comment)] ;;;
              _notify_approver workflow_id task_id (Approval.id new_approval) ;;;
              the_workflow workflow_id
            else
              raise (ValueError ("Genehmigung kann nicht delegiert werden, Status: "
                                 +:+ ApprovalStatus.value (Approval.status approval)))
        end
      else
        raise (ValueError ("Task benötigt keine Genehmigung, Status: "
                           +:+ TaskStatus.value (Task.status task)))
  end.

(** *** provide_input *)

Definition provide_input (fuel : nat) (workflow_id task_id : string)
    (input_data : value) : M (Workflow.t loc) :=
  workflow <~ lookup_workflow workflow_id ;;
  match find_task task_id (Workflow.tasks workflow) with
  | None => raise (ValueError ("Task nicht gefunden: " +:+ task_id))
  | Some (task_index, task) =>
      if bool_decide (Task.status task = TaskStatus.WAITING_INPUT) then
        modify_task workflow_id task_index (Task.set_status TaskStatus.RUNNING) ;;;
        (* task["data"]["input"] = input_data: a write to the dictionary
           object the task refers to *)
        modify (fun e =>
          set_heap (alter (dict_set "input" input_data) (Task.data task) (heap e)) e) ;;;
        _add_history_event workflow_id "input_provided"
          [("workflow_id", VStr workflow_id);
           ("task_id", VStr task_id);
           ("task_name", VStr (Task.name task))] ;;;
        _trigger_event "input_provided"
          [("workflow_id", VStr workflow_id);
           ("task_id", VStr task_id);
           ("input_data", input_data)] ;;;
        _execute_task fuel workflow_id task_id ;;;
        the_workflow workflow_id
      else
        raise (ValueError ("Task benötigt keine Eingabe, Status: "
                           +:+ TaskStatus.value (Task.status task)))
  end.

(** *** cancel_workflow *)

(** The body of the loop over the tasks. *)
Definition cancel_task (task : Task.t loc) : Task.t loc :=
  match Task.status task with
  | TaskStatus.PENDING | TaskStatus.RUNNING
  | TaskStatus.WAITING_APPROVAL | TaskStatus.WAITING_INPUT =>
      Task.set_status TaskStatus.CANCELLED task
  | _ => task
  end.

Definition cancel_workflow (workflow_id reason : string) : M (Workflow.t loc) :=
  workflow <~ lookup_workflow workflow_id ;;
  match Workflow.status workflow with
  | WorkflowStatus.COMPLETED | WorkflowStatus.FAILED | WorkflowStatus.CANCELLED =>
      raise (ValueError ("Workflow kann nicht abgebrochen werden, Status: "
                         +:+ WorkflowStatus.value (Workflow.status workflow)))
  | _ =>
      modify_workflow workflow_id (Workflow.set_status WorkflowStatus.CANCELLED) ;;;
      modify_workflow workflow_id
        (fun w => Workflow.set_tasks (cancel_task <$> Workflow.tasks w) w) ;;;
      _add_history_event workflow_id "workflow_cancelled"
        [("workflow_id", VStr workflow_id);
         ("workflow_name", VStr (Workflow.name workflow));
         ("reason", VStr reason)] ;;;
      _trigger_event "workflow_cancelled"
        [("workflow_id", VStr workflow_id); ("reason", VStr reason)] ;;;
      the_workflow workflow_id
  end.

(** *** export_workflow and import_workflow *)

(** [json.loads(json.dumps(workflow))]: a copy that shares nothing with
    the stored workflow; a task's data is the dictionary itself. *)
Definition export_workflow (workflow_id : string) : M (Workflow.t dict) :=
  workflow <~ lookup_workflow workflow_id ;;
  h <~ gets heap ;;
  ret (Workflow.map_data (heap_get h) workflow).

(** The copy [import_workflow] starts with: every task's data becomes a
    new dictionary object. *)
Definition load_task (task : Task.t dict) : M (Task.t loc) :=
  l <~ alloc (Task.data task) ;;
  ret (Task.map_data (fun _ => l) task).

(** The loop that gives every approval of a task a new id. *)
Fixpoint renew_approvals (approvals : list Approval.t)
    (id_mapping : gmap string string)
  : M (list Approval.t * gmap string string) :=
  match approvals with
  | [] => ret ([], id_mapping)
  | approval :: rest =>
      new_id <~ new_uuid ;;
      r <~ renew_approvals rest (<[Approval.id approval := new_id]> id_mapping) ;;
      ret (Approval.set_id new_id approval :: r.1, r.2)
  end.

(** The loop that gives every task, and its approvals, a new id. *)
Fixpoint renew_tasks (tasks : list (Task.t loc)) (id_mapping : gmap string string)
  : M (list (Task.t loc) * gmap string string) :=
  match tasks with
  | [] => ret ([], id_mapping)
  | task :: rest =>
      new_id <~ new_uuid ;;
      a <~ renew_approvals (Task.approvals task) (<[Task.id task := new_id]> id_mapping) ;;
      r <~ renew_tasks rest a.2 ;;
      ret (Task.set_approvals a.1 (Task.set_id new_id task) :: r.1, r.2)
  end.

(** [[id_mapping[d] for d in dependencies if d in id_mapping]]. *)
Definition translate_dependencies (id_mapping : gmap string string)
    (dependencies : list string) : list string :=
  omap (fun dep_id => id_mapping !! dep_id) dependencies.

Definition import_workflow (workflow_data : Workflow.t dict) : M string :=
  tasks0 <~ for_each load_task (Workflow.tasks workflow_data) ;;
  let old_id := Workflow.id workflow_data in
  new_id <~ new_uuid ;;
  r <~ renew_tasks tasks0 {[old_id := new_id]} ;;
  let tasks :=
    (fun t => Task.set_dependencies
                (translate_dependencies r.2 (Task.dependencies t)) t) <$> r.1 in
  let workflow :=
    Workflow.mk new_id
      (Workflow.template_id workflow_data)
      (Workflow.name workflow_data)
      (Workflow.description workflow_data)
      (Workflow.status workflow_data)
      tasks
      (Workflow.data workflow_data)
      (Workflow.current_task_index workflow_data)
      (Workflow.participants workflow_data)
      (Workflow.history workflow_data) in
  modify (fun e => set_workflows (<[new_id := workflow]> (workflows e)) e) ;;;
  _add_history_event new_id "workflow_imported"
    [("workflow_id", VStr new_id);
     ("workflow_name", VStr (Workflow.name workflow));
     ("original_id", VStr old_id)] ;;;
  _trigger_event "workflow_imported"
    [("workflow_id", VStr new_id); ("original_id", VStr old_id)] ;;;
  ret new_id.

End WorkflowEngine.

(** ** States during an operation

    During an operation on the workflow [workflow_id] the state has the
    shape [put_wf workflow_id w e]: the workflow object holds [w], and
    [e] carries the rest of the engine (the other workflows, the
    registries, the heap and the number of identifiers drawn). *)

Definition put_wf (workflow_id : string) (w : Workflow.t loc) (e : Engine) : Engine :=
  set_workflows (<[workflow_id := w]> (workflows e)) e.

Definition tick (e : Engine) : Engine := set_uuid_draws (S (uuid_draws e)) e.

Definition append_event (ev : HistoryEvent.t) (w : Workflow.t loc) : Workflow.t loc :=
  Workflow.set_history (Workflow.history w ++ [ev]) w.

Definition alter_task (i : nat) (f : Task.t loc -> Task.t loc)
    (w : Workflow.t loc) : Workflow.t loc :=
  Workflow.set_tasks (alter f i (Workflow.tasks w)) w.

(** The terminal statuses of a workflow and of a task. *)
Definition terminal_workflow (s : WorkflowStatus.t) : bool :=
  match s with
  | WorkflowStatus.COMPLETED | WorkflowStatus.FAILED | WorkflowStatus.CANCELLED => true
  | _ => false
  end.

Definition terminal_task (s : TaskStatus.t) : bool :=
  match s with
  | TaskStatus.COMPLETED | TaskStatus.FAILED
  | TaskStatus.CANCELLED | TaskStatus.SKIPPED => true
  | _ => false
  end.

(** ** What task processing may change

    [skeleton t] keeps the fields of a task that no operation of the
    engine writes after the task has been made. *)

Definition skeleton (t : Task.t loc) : Task.t loc :=
  Task.set_approvals [] (Task.set_result VNone (Task.set_status TaskStatus.PENDING t)).

Definition task_ids (w : Workflow.t loc) : list string :=
  Task.id <$> Workflow.tasks w.

(** [evolves w w']: the tasks of [w'] are those of [w], in the same
    order, up to status, result and approvals; and a task with approvers
    that is COMPLETED in [w'] was COMPLETED in [w] already. *)
Record evolves (w w' : Workflow.t loc) : Prop := {
  evolves_skeleton :
    skeleton <$> Workflow.tasks w' = skeleton <$> Workflow.tasks w;
  evolves_completed :
    forall k t',
      Workflow.tasks w' !! k = Some t' ->
      Task.approvers t' <> [] ->
      Task.status t' = TaskStatus.COMPLETED ->
      exists t, Workflow.tasks w !! k = Some t /\ Task.status t = TaskStatus.COMPLETED
}.

(** [advance c P w w']: the tasks before position [c] are untouched, and
    the cursor is where it was or beyond [c], the latter only if [P]. *)
Definition advance (c : nat) (P : Prop) (w w' : Workflow.t loc) : Prop :=
  (forall k, k < c -> Workflow.tasks w' !! k = Workflow.tasks w !! k)
  /\ (Workflow.current_task_index w' = Workflow.current_task_index w
      \/ (c < Workflow.current_task_index w' /\ P)).

(** The contracts of the three mutually recursive functions, on a state
    that holds the workflow [w].  [n] is the fuel at hand: when the task
    ids are pairwise distinct, fuel runs out only if fewer than [n] tasks
    remain from the position processed. *)
Definition process_ok (n : nat) (process_next : string -> M unit) : Prop :=
  forall e workflow_id w,
    match process_next workflow_id (put_wf workflow_id w e) with
    | Ok _ e1 =>
        exists w' n',
          e1 = put_wf workflow_id w' (set_uuid_draws n' e)
          /\ evolves w w'
          /\ (NoDup (task_ids w) ->
              advance (Workflow.current_task_index w)
                (exists next,
                    Workflow.tasks w !! Workflow.current_task_index w = Some next
                    /\ is_Some (task_handlers e !! Task.type next)
                    /\ Task.approvers next = [])
                w w')
    | Raise _ _ => False
    | OutOfFuel =>
        NoDup (task_ids w) ->
        n <= length (Workflow.tasks w) - Workflow.current_task_index w
    end.

Definition complete_ok (n : nat)
    (complete : string -> string -> value -> M (Workflow.t loc)) : Prop :=
  forall e workflow_id task_id result w,
    match complete workflow_id task_id result (put_wf workflow_id w e) with
    | Ok wr e1 =>
        exists w' n',
          e1 = put_wf workflow_id w' (set_uuid_draws n' e)
          /\ wr = w'
          /\ evolves w w'
          /\ exists i t,
               find_task task_id (Workflow.tasks w) = Some (i, t)
               /\ (Task.status t = TaskStatus.RUNNING
                   \/ Task.status t = TaskStatus.WAITING_INPUT)
               /\ (NoDup (task_ids w) -> advance i (Task.approvers t = []) w w')
    | Raise x e1 => e1 = put_wf workflow_id w e /\ exists msg, x = ValueError msg
    | OutOfFuel =>
        NoDup (task_ids w) ->
        exists i t,
          find_task task_id (Workflow.tasks w) = Some (i, t)
          /\ n <= length (Workflow.tasks w) - S i
    end.

Definition execute_ok (n : nat) (execute : string -> string -> M unit) : Prop :=
  forall e workflow_id task_id w,
    match execute workflow_id task_id (put_wf workflow_id w e) with
    | Ok _ e1 =>
        exists w' n',
          e1 = put_wf workflow_id w' (set_uuid_draws n' e)
          /\ evolves w w'
          /\ (NoDup (task_ids w) ->
              forall i t,
                find_task task_id (Workflow.tasks w) = Some (i, t) ->
                advance i
                  (is_Some (task_handlers e !! Task.type t) /\ Task.approvers t = [])
                  w w')
    | Raise _ _ => False
    | OutOfFuel =>
        NoDup (task_ids w) ->
        exists i t,
          find_task task_id (Workflow.tasks w) = Some (i, t)
          /\ n <= length (Workflow.tasks w) - S i
    end.

(** ** Approvals *)

Definition some_pending (l : list Approval.t) : bool :=
  existsb (fun a => bool_decide (Approval.status a = ApprovalStatus.PENDING)) l.

Definition some_rejected (l : list Approval.t) : bool :=
  existsb (fun a => bool_decide (Approval.status a = ApprovalStatus.REJECTED)) l.

(** The approval [a] once [approve_task] has recorded the verdict. *)
Definition verdict (approved : bool) (comment : string) (a : Approval.t) : Approval.t :=
  Approval.mk (Approval.id a) (Approval.approver a)
    (if approved then ApprovalStatus.APPROVED else ApprovalStatus.REJECTED)
    comment.

(** ** Calls of the public operations

    The calls a client can make on a stored workflow, and the states the
    engine goes through under a sequence of such calls (a call that
    raises leaves the engine in the state reached at the raise). *)







(** The task at position [k] of the workflow has approvers and is not
    COMPLETED. *)
Definition gated (workflow_id : string) (k : nat) (e : Engine) : Prop :=
  exists w t,
    workflows e !! workflow_id = Some w
    /\ Workflow.tasks w !! k = Some t
    /\ Task.approvers t <> []
    /\ Task.status t <> TaskStatus.COMPLETED.

(** A task on which no call can act: it is not RUNNING, not
    WAITING_INPUT, and if it is in WAITING_APPROVAL none of its approvals
    is PENDING. *)
Definition inert (t : Task.t loc) : Prop :=
  Task.status t <> TaskStatus.RUNNING
  /\ Task.status t <> TaskStatus.WAITING_INPUT
  /\ (Task.status t = TaskStatus.WAITING_APPROVAL ->
      some_pending (Task.approvals t) = false).


(** ** Identifiers of a workflow *)

(** The id of a task followed by the ids of its approvals, and all the
    ids of a workflow, in the order in which [create_workflow] and
    [import_workflow] draw them. *)
Definition task_and_approval_ids {D} (t : Task.t D) : list string :=
  Task.id t :: (Approval.id <$> Task.approvals t).

Definition tasks_ids {D} (tasks : list (Task.t D)) : list string :=
  concat (task_and_approval_ids <$> tasks).

Definition all_ids {D} (w : Workflow.t D) : list string :=
  Workflow.id w :: tasks_ids (Workflow.tasks w).

(** What a task made by [create_workflow] takes from its template. *)
Definition made_from (task_template : TaskTemplate.t) (t : Task.t loc) : Prop :=
  Task.name t = default "Unbenannte Task" (TaskTemplate.name task_template)
  /\ Task.description t = default "" (TaskTemplate.description task_template)
  /\ Task.type t = default "manual" (TaskTemplate.type task_template)
  /\ Task.status t = TaskStatus.PENDING
  /\ Task.assignee t = TaskTemplate.assignee task_template
  /\ Task.approvers t = default [] (TaskTemplate.approvers task_template)
  /\ Task.dependencies t = default [] (TaskTemplate.dependencies task_template)
  /\ Task.result t = VNone
  /\ Approval.approver <$> Task.approvals t = Task.approvers t
  /\ Forall (fun a => Approval.status a = ApprovalStatus.PENDING) (Task.approvals t)
  /\ (forall l, TaskTemplate.data task_template = Some l -> Task.data t = l).

(** The registries and stored workflows of two states are the same. *)
Definition same_stores (e e' : Engine) : Prop :=
  workflows e' = workflows e
  /\ workflow_templates e' = workflow_templates e
  /\ task_handlers e' = task_handlers e.

(** ** Snapshots *)

(** [renamed uuid4 olds n m m']: the map [m'] is [m] after the writes
    [m[o] = uuid4 (n + k)], for the k-th element [o] of [olds], made in
    the order of the list. *)
Definition renamed (uuid4 : nat -> string) (olds : list string) (n : nat)
    (m m' : gmap string string) : Prop :=
  (forall x, x ∉ olds -> m' !! x = m !! x)
  /\ (forall x, x ∈ olds ->
        exists k, olds !! k = Some x /\ m' !! x = Some (uuid4 (n + k)))
  /\ (NoDup olds ->
      forall k o, olds !! k = Some o -> m' !! o = Some (uuid4 (n + k))).

(** A task without its id, the ids of its approvals and its
    dependencies: what [import_workflow] keeps of it. *)
Definition anonymous {D} (t : Task.t D) : Task.t D :=
  Task.set_dependencies []
    (Task.set_id ""
       (Task.set_approvals (Approval.set_id "" <$> Task.approvals t) t)).

(** * Scenarios

    Concrete engines, reached from [init] by calls of the public
    operations, on which the properties below are exercised.  The
    identifier source of the scenarios yields "uuid-0", "uuid-1", ... *)

Definition uuid_of (k : nat) : string := "uuid-" +:+ pretty k.

(** The state an operation leaves behind. *)
Definition state_of {A} (r : Res A) : Engine :=
  match r with
  | Ok _ e | Raise _ e => e
  | OutOfFuel => init
  end.

Definition empty_task : Task.t loc :=
  Task.mk "" "" "" "" TaskStatus.PENDING None [] 0 [] VNone [].

Definition empty_workflow : Workflow.t loc :=
  Workflow.mk "" "" "" "" WorkflowStatus.CREATED [] VNone 0 [] [].

Definition empty_approval : Approval.t :=
  Approval.mk "" "" ApprovalStatus.PENDING "".

Definition workflow_of (e : Engine) (workflow_id : string) : Workflow.t loc :=
  default empty_workflow (workflows e !! workflow_id).

Definition task_of (e : Engine) (workflow_id : string) (i : nat) : Task.t loc :=
  default empty_task (Workflow.tasks (workflow_of e workflow_id) !! i).

Definition approval_of (e : Engine) (workflow_id : string) (i j : nat) : Approval.t :=
  default empty_approval (Task.approvals (task_of e workflow_id i) !! j).

(** ** A review with two approvers, followed by an automatic task *)

Definition handler_ok : Handler :=
  fun _ _ _ => inl (VDict [("ok", VBool true)]).

Definition review_template : WorkflowTemplate.t :=
  WorkflowTemplate.mk (Some "Planpruefung") None
    (Some [TaskTemplate.mk (Some "review") None (Some "manual") (Some "bob")
             (Some ["A"; "B"]) None None;
           TaskTemplate.mk (Some "publish") None (Some "auto") None
             None None None])
    None.

Definition review_registered : Engine :=
  state_of (register_task_handler "auto" handler_ok
              (state_of (register_workflow_template "review" review_template init))).

(** The workflow "uuid-0": its first task is "uuid-1", with the approvals
    "uuid-2" (of A) and "uuid-3" (of B); its second task is "uuid-4". *)
Definition review_created : Engine :=
  state_of (create_workflow uuid_of "review" VNone review_registered).

Definition review_started : Engine :=
  state_of (start_workflow uuid_of 3 "uuid-0" review_created).

(** The review is done and waits for A and B. *)
Definition review_waiting : Engine :=
  state_of (complete_task uuid_of 3 "uuid-0" "uuid-1" (VStr "done") review_started).

Definition review_approved_by_A : Engine :=
  state_of (approve_task uuid_of 3 "uuid-0" "uuid-1" "uuid-2" true "ok"
              review_waiting).

Definition review_approved_by_both : Engine :=
  state_of (approve_task uuid_of 3 "uuid-0" "uuid-1" "uuid-3" true "ok"
              review_approved_by_A).

Definition review_rejected_by_A : Engine :=
  state_of (approve_task uuid_of 3 "uuid-0" "uuid-1" "uuid-2" false "no"
              review_waiting).

(** ** A task that depends on a later one

    A hand-written snapshot in which the first task depends on the second;
    importing it gives the workflow "uuid-0" with the tasks "uuid-1" and
    "uuid-2", the first depending on "uuid-2". *)

Definition crossed_snapshot : Workflow.t dict :=
  Workflow.mk "w" "" "crossed" "" WorkflowStatus.CREATED
    [Task.mk "b" "B" "" "manual" TaskStatus.PENDING None [] [] ["c"] VNone [];
     Task.mk "c" "C" "" "manual" TaskStatus.PENDING None [] [] [] VNone []]
    VNone 0 [] [].

Definition crossed_imported : Engine :=
  state_of (import_workflow uuid_of crossed_snapshot init).

Definition crossed_started : Engine :=
  state_of (start_workflow uuid_of 3 "uuid-0" crossed_imported).

(** ** A handler that raises *)

Definition handler_boom : Handler := fun _ _ _ => inr "kaputt".

Definition boom_template : WorkflowTemplate.t :=
  WorkflowTemplate.mk (Some "boom") None
    (Some [TaskTemplate.mk (Some "explode") None (Some "auto") None
             None None None])
    None.

Definition boom_created : Engine :=
  state_of (create_workflow uuid_of "boom" VNone
    (state_of (register_task_handler "auto" handler_boom
       (state_of (register_workflow_template "boom" boom_template init))))).

(** ** A template whose task carries a data dictionary

    The dictionary of the template's task is the object at location 0 of
    the heap; it is empty when the template is registered. *)

Definition form_template : WorkflowTemplate.t :=
  WorkflowTemplate.mk (Some "form") None
    (Some [TaskTemplate.mk (Some "fill in") None (Some "input") (Some "bob")
             None (Some 0) None])
    None.

Definition form_registered : Engine :=
  state_of (register_workflow_template "form" form_template
              (set_heap [[]] init)).

Definition form_created : Engine :=
  state_of (create_workflow uuid_of "form" VNone form_registered).

Definition form_started : Engine :=
  state_of (start_workflow uuid_of 3 "uuid-0" form_created).

Definition form_filled : Engine :=
  state_of (provide_input uuid_of 3 "uuid-0" "uuid-1"
              (VDict [("x", VInt 1)]) form_started).

(** The task data of a registered template, as a reader of the template
    store sees them. *)
Definition template_task_data (e : Engine) (template_id : string)
  : list (option dict) :=
  match workflow_templates e !! template_id with
  | None => []
  | Some template =>
      (fun task_template => heap_get (heap e) <$> TaskTemplate.data task_template)
        <$> default [] (WorkflowTemplate.tasks template)
  end.

(** The review workflow while it waits for A and B, its first task and
    the two approvals. *)
Definition review_workflow : Workflow.t loc := workflow_of review_waiting "uuid-0".
Definition review_task : Task.t loc := task_of review_waiting "uuid-0" 0.
Definition approval_A : Approval.t := approval_of review_waiting "uuid-0" 0 0.
Definition approval_B : Approval.t := approval_of review_waiting "uuid-0" 0 1.
(** * Symbolic execution of the engine operations *)

Section Exec.
Variable uuid4 : nat -> string.
Implicit Types (e : Engine) (w : Workflow.t loc) (wid : string).

Lemma put_wf_id e wid w : workflows e !! wid = Some w -> e = put_wf wid w e.
Proof.
  intros H. destruct e as [ws ? ? ? ?]. unfold put_wf, set_workflows. simpl in *.
  by rewrite insert_id.
Qed.

Lemma put_wf_put_wf e wid w w' : put_wf wid w' (put_wf wid w e) = put_wf wid w' e.
Proof.
  unfold put_wf, set_workflows. simpl. by rewrite insert_insert_eq.
Qed.

Lemma lookup_put_wf e wid w : workflows (put_wf wid w e) !! wid = Some w.
Proof. unfold put_wf. simpl. apply lookup_insert_eq. Qed.


Lemma lookup_workflow_put e wid w :
  lookup_workflow wid (put_wf wid w e) = Ok w (put_wf wid w e).
Proof. unfold lookup_workflow. by rewrite lookup_put_wf. Qed.

Lemma the_workflow_put e wid w :
  the_workflow wid (put_wf wid w e) = Ok w (put_wf wid w e).
Proof. unfold the_workflow. by rewrite lookup_put_wf. Qed.

Lemma modify_workflow_put e wid w f :
  modify_workflow wid f (put_wf wid w e) = Ok tt (put_wf wid (f w) e).
Proof.
  unfold modify_workflow, modify, put_wf, set_workflows. simpl.
  by rewrite alter_insert_eq.
Qed.

Lemma modify_task_put e wid w i f :
  modify_task wid i f (put_wf wid w e) = Ok tt (put_wf wid (alter_task i f w) e).
Proof. unfold modify_task. by rewrite modify_workflow_put. Qed.

Lemma the_task_put e wid w i t :
  Workflow.tasks w !! i = Some t ->
  the_task wid i (put_wf wid w e) = Ok t (put_wf wid w e).
Proof.
  intros H. unfold the_task, bind. rewrite the_workflow_put. by rewrite H.
Qed.

Lemma new_uuid_put e wid w :
  new_uuid uuid4 (put_wf wid w e) = Ok (uuid4 (uuid_draws e)) (put_wf wid w (tick e)).
Proof. reflexivity. Qed.

Lemma add_history_event_put e wid w ty d :
  _add_history_event uuid4 wid ty d (put_wf wid w e)
  = Ok tt (put_wf wid (append_event (HistoryEvent.mk (uuid4 (uuid_draws e)) ty d) w)
                  (tick e)).
Proof.
  unfold _add_history_event, bind. rewrite the_workflow_put, new_uuid_put.
  by rewrite modify_workflow_put.
Qed.

Lemma modify_approval_put e wid w i j f :
  modify_approval wid i j f (put_wf wid w e)
  = Ok tt (put_wf wid
             (alter_task i
                (fun t => Task.set_approvals (alter f j (Task.approvals t)) t) w) e).
Proof. unfold modify_approval. by rewrite modify_task_put. Qed.

Lemma new_approval_put e wid w approver :
  new_approval uuid4 approver (put_wf wid w e)
  = Ok (Approval.mk (uuid4 (uuid_draws e)) approver ApprovalStatus.PENDING "")
       (put_wf wid w (tick e)).
Proof. reflexivity. Qed.

Lemma notify_approver_put e wid w tid aid :
  _notify_approver wid tid aid (put_wf wid w e) = Ok tt (put_wf wid w e).
Proof. unfold _notify_approver, bind. by rewrite the_workflow_put. Qed.

Lemma notify_assignee_put e wid w tid :
  _notify_assignee wid tid (put_wf wid w e) = Ok tt (put_wf wid w e).
Proof. unfold _notify_assignee, bind. by rewrite the_workflow_put. Qed.

Lemma notify_approvers_put e wid w tid (l : list Approval.t) :
  for_each (fun a => _notify_approver wid tid (Approval.id a)) l (put_wf wid w e)
  = Ok (const tt <$> l) (put_wf wid w e).
Proof.
  induction l as [|a l IH]; [done|].
  simpl. unfold bind. by rewrite notify_approver_put, IH.
Qed.

Lemma mark_task_failed_put e wid w i tid tname reason :
  mark_task_failed uuid4 wid i tid tname reason (put_wf wid w e)
  = Ok tt (put_wf wid
             (append_event
                (HistoryEvent.mk (uuid4 (uuid_draws e)) "task_failed"
                   [("workflow_id", VStr wid); ("task_id", VStr tid);
                    ("task_name", VStr tname); ("reason", VStr reason)])
                (alter_task i (Task.set_status TaskStatus.FAILED) w))
             (tick e)).
Proof.
  unfold mark_task_failed, bind.
  by rewrite modify_task_put, add_history_event_put.
Qed.

Lemma mark_workflow_failed_put e wid w wname tname :
  mark_workflow_failed uuid4 wid wname tname (put_wf wid w e)
  = Ok tt (put_wf wid
             (append_event
                (HistoryEvent.mk (uuid4 (uuid_draws e)) "workflow_failed"
                   [("workflow_id", VStr wid); ("workflow_name", VStr wname);
                    ("reason", VStr ("Task fehlgeschlagen: " +:+ tname))])
                (Workflow.set_status WorkflowStatus.FAILED w))
             (tick e)).
Proof.
  unfold mark_workflow_failed, bind.
  by rewrite modify_workflow_put, add_history_event_put.
Qed.
End Exec.

Lemma bind_Ok {A B} (m : M A) (k : A -> M B) (e : Engine) a e' :
  m e = Ok a e' -> bind m k e = k a e'.
Proof. unfold bind. by intros ->. Qed.

Lemma bind_Raise {A B} (m : M A) (k : A -> M B) (e : Engine) x e' :
  m e = Raise x e' -> bind m k e = Raise x e'.
Proof. unfold bind. by intros ->. Qed.

Lemma bind_assoc {A B C} (m : M A) (f : A -> M B) (g : B -> M C) (e : Engine) :
  bind (bind m f) g e = bind m (fun x => bind (f x) g) e.
Proof. unfold bind. by destruct (m e). Qed.

(** The effect of a primitive on a state of the shape [put_wf wid w e]. *)
Ltac prim :=
  lazymatch goal with
  | |- ret _ _ = _ => exact eq_refl
  | |- gets _ _ = _ => exact eq_refl
  | |- modify _ _ = _ => exact eq_refl
  | |- _trigger_event _ _ _ = _ => exact eq_refl
  | |- _ => idtac
  end;
  first
    [ apply lookup_workflow_put
    | apply the_workflow_put
    | apply modify_workflow_put
    | apply modify_task_put
    | apply add_history_event_put
    | apply notify_approver_put
    | apply notify_assignee_put
    | apply notify_approvers_put
    | apply mark_task_failed_put
    | apply mark_workflow_failed_put
    | apply new_uuid_put
    | apply new_approval_put
    | apply modify_approval_put ].

(** Symbolic execution of a goal about [m (put_wf wid w e)], up to the
    next branching of the code. *)
Ltac exec_step :=
  first
    [ rewrite bind_assoc
    | erewrite bind_Ok by prim
    | rewrite lookup_workflow_put
    | rewrite the_workflow_put
    | rewrite modify_workflow_put
    | rewrite modify_task_put
    | rewrite add_history_event_put
    | rewrite mark_task_failed_put
    | rewrite mark_workflow_failed_put ].

Ltac exec := repeat (exec_step; cbv beta).

(** * Properties *)

Section Cancel.
Variable uuid4 : nat -> string.

Lemma cancel_task_terminal (t : Task.t loc) :
  cancel_task t
  = if terminal_task (Task.status t) then t
    else Task.set_status TaskStatus.CANCELLED t.
Proof. unfold cancel_task. by destruct (Task.status t). Qed.

(** C8. [cancel_workflow] raises a [ValueError] and changes nothing when
    the workflow is COMPLETED, FAILED or CANCELLED.  Otherwise the
    workflow becomes CANCELLED, every task that is PENDING, RUNNING,
    WAITING_APPROVAL or WAITING_INPUT becomes CANCELLED, and every
    terminal task (a COMPLETED task with its result in particular) is
    the very same task afterwards; the heap of task data is untouched. *)
Theorem cancel_workflow_spec (e : Engine) (workflow_id reason : string)
    (w : Workflow.t loc) :
  workflows e !! workflow_id = Some w ->
  if terminal_workflow (Workflow.status w) then
    exists msg,
      cancel_workflow uuid4 workflow_id reason e = Raise (ValueError msg) e
  else
    exists w' e',
      cancel_workflow uuid4 workflow_id reason e = Ok w' e'
      /\ workflows e' !! workflow_id = Some w'
      /\ Workflow.status w' = WorkflowStatus.CANCELLED
      /\ length (Workflow.tasks w') = length (Workflow.tasks w)
      /\ (forall i t,
            Workflow.tasks w !! i = Some t ->
            Workflow.tasks w' !! i
            = Some (if terminal_task (Task.status t) then t
                    else Task.set_status TaskStatus.CANCELLED t))
      /\ heap e' = heap e.
Proof.
  intros Hw. rewrite (put_wf_id e workflow_id w Hw).
  unfold cancel_workflow. exec.
  destruct (Workflow.status w) eqn:Hs; simpl;
    try (eexists; reflexivity);
    exec; (do 2 eexists; split; [reflexivity|]);
    (split; [apply lookup_put_wf|]); simpl;
    (split; [done|]); (split; [by rewrite length_fmap|]);
    (split; [|done]); intros i t Hi;
    by rewrite list_lookup_fmap, Hi, <- cancel_task_terminal.
Qed.
End Cancel.

(** ** Lists of tasks and approvals *)

Lemma alter_as_insert {A} (f : A -> A) (l : list A) (i : nat) (x : A) :
  l !! i = Some x -> alter f i l = <[i := f x]> l.
Proof.
  intros H. rewrite list_insert_alter. apply list_alter_ext; [|done].
  intros y Hy. congruence.
Qed.

Lemma find_task_Some {D} (task_id : string) (tasks : list (Task.t D)) i t :
  find_task task_id tasks = Some (i, t) ->
  tasks !! i = Some t /\ Task.id t = task_id.
Proof. unfold find_task. rewrite list_find_Some. by intros (? & ? & _). Qed.

Lemma find_approval_Some (approval_id : string) (l : list Approval.t) j a :
  find_approval approval_id l = Some (j, a) ->
  l !! j = Some a /\ Approval.id a = approval_id.
Proof. unfold find_approval. rewrite list_find_Some. by intros (? & ? & _). Qed.

(** A DELEGATED approval takes no part in the consensus check. *)
Lemma check_approvals_delegated (l : list Approval.t) (r : bool) :
  check_approvals l r
  = check_approvals
      (filter (fun a => Approval.status a <> ApprovalStatus.DELEGATED) l) r.
Proof.
  revert r. induction l as [|a l IH]; intros r; [done|].
  rewrite filter_cons. destruct (decide _) as [Hd|Hd]; simpl.
  - repeat case_bool_decide; auto.
  - apply dec_stable in Hd. rewrite Hd. simpl. apply IH.
Qed.

Section Delegate.
Variable uuid4 : nat -> string.

(** C7. On a task in WAITING_APPROVAL and a PENDING approval [a] of it,
    [delegate_approval] succeeds; afterwards [a] is DELEGATED (with the
    comment), a new PENDING approval of the new approver, with a newly
    drawn id, ends the task's approval list, every other approval and
    every other field of the task (its WAITING_APPROVAL status
    included) is as before, and so are the workflow's status and
    cursor.  The consensus check skips DELEGATED approvals.  When the
    task is not in WAITING_APPROVAL or the approval is not PENDING, the
    call raises a [ValueError] and changes nothing. *)
Theorem delegate_approval_spec (e : Engine)
    (workflow_id task_id approval_id new_approver comment : string)
    (w : Workflow.t loc) (i : nat) (t : Task.t loc) (j : nat) (a : Approval.t) :
  workflows e !! workflow_id = Some w ->
  find_task task_id (Workflow.tasks w) = Some (i, t) ->
  find_approval approval_id (Task.approvals t) = Some (j, a) ->
  if bool_decide (Task.status t = TaskStatus.WAITING_APPROVAL)
     && bool_decide (Approval.status a = ApprovalStatus.PENDING)
  then
    let a_old :=
      Approval.mk (Approval.id a) (Approval.approver a)
        ApprovalStatus.DELEGATED comment in
    let a_new :=
      Approval.mk (uuid4 (uuid_draws e)) new_approver ApprovalStatus.PENDING "" in
    let t' := Task.set_approvals (<[j := a_old]> (Task.approvals t) ++ [a_new]) t in
    exists w' e',
      delegate_approval uuid4 workflow_id task_id approval_id new_approver comment e
      = Ok w' e'
      /\ workflows e' !! workflow_id = Some w'
      /\ Workflow.tasks w' = <[i := t']> (Workflow.tasks w)
      /\ Task.status t' = TaskStatus.WAITING_APPROVAL
      /\ Workflow.status w' = Workflow.status w
      /\ Workflow.current_task_index w' = Workflow.current_task_index w
      /\ (forall r,
            check_approvals (Task.approvals t') r
            = check_approvals
                (filter (fun x => Approval.status x <> ApprovalStatus.DELEGATED)
                   (Task.approvals t')) r)
  else
    exists msg,
      delegate_approval uuid4 workflow_id task_id approval_id new_approver comment e
      = Raise (ValueError msg) e.
Proof.
  intros Hw Hft Hfa.
  destruct (find_task_Some _ _ _ _ Hft) as [Hti _].
  destruct (find_approval_Some _ _ _ _ Hfa) as [Haj _].
  rewrite (put_wf_id e workflow_id w Hw).
  unfold delegate_approval. exec. rewrite Hft.
  case_bool_decide as Hst; simpl; [|eexists; reflexivity].
  rewrite Hfa.
  case_bool_decide as Hsa; simpl; [|eexists; reflexivity].
  exec.
  do 2 eexists. split; [reflexivity|].
  split; [apply lookup_put_wf|]. simpl.
  split.
  - rewrite list_alter_alter_eq. rewrite (alter_as_insert _ _ _ _ Hti).
    f_equal. simpl. unfold Task.set_approvals. simpl.
    by rewrite (alter_as_insert _ _ _ _ Haj).
  - split; [done|]. split; [done|]. split; [done|].
    intros r. apply check_approvals_delegated.
Qed.
End Delegate.

Lemma skeleton_lookup (l l' : list (Task.t loc)) k t' :
  skeleton <$> l' = skeleton <$> l ->
  l' !! k = Some t' ->
  exists t, l !! k = Some t /\ skeleton t' = skeleton t.
Proof.
  intros Hs Hk.
  assert ((skeleton <$> l) !! k = Some (skeleton t')) as H.
  { rewrite <- Hs, list_lookup_fmap, Hk. done. }
  rewrite list_lookup_fmap in H.
  destruct (l !! k) as [t|]; [|done].
  exists t. split; [done|].
  change (Some (skeleton t) = Some (skeleton t')) in H. congruence.
Qed.

Lemma skeleton_approvers (t t' : Task.t loc) :
  skeleton t' = skeleton t -> Task.approvers t' = Task.approvers t.
Proof. intros H. by apply (f_equal Task.approvers) in H. Qed.


Lemma skeleton_task_ids (w w' : Workflow.t loc) :
  skeleton <$> Workflow.tasks w' = skeleton <$> Workflow.tasks w ->
  task_ids w' = task_ids w.
Proof.
  intros H. unfold task_ids.
  apply (f_equal (fmap Task.id)) in H.
  by rewrite <- !list_fmap_compose in H.
Qed.

Lemma skeleton_length (w w' : Workflow.t loc) :
  skeleton <$> Workflow.tasks w' = skeleton <$> Workflow.tasks w ->
  length (Workflow.tasks w') = length (Workflow.tasks w).
Proof. intros H. apply (f_equal length) in H. by rewrite !length_fmap in H. Qed.

Lemma evolves_same_tasks (w w' : Workflow.t loc) :
  Workflow.tasks w' = Workflow.tasks w -> evolves w w'.
Proof. intros H. split; rewrite H; eauto. Qed.

Lemma evolves_trans (w1 w2 w3 : Workflow.t loc) :
  evolves w1 w2 -> evolves w2 w3 -> evolves w1 w3.
Proof.
  intros [Hs1 Hc1] [Hs2 Hc2]. split; [congruence|].
  intros k t3 Hk Ha Hst.
  destruct (Hc2 k t3 Hk Ha Hst) as (t2 & Hk2 & Hst2).
  apply (Hc1 k t2); [done| |done].
  destruct (skeleton_lookup _ _ _ _ Hs2 Hk) as (t2' & Hk2' & Hsk).
  rewrite Hk2 in Hk2'. injection Hk2' as <-.
  by rewrite <- (skeleton_approvers _ _ Hsk).
Qed.

(** A write to one task that keeps its skeleton and does not complete a
    task with approvers. *)
Lemma evolves_alter (w w' : Workflow.t loc) (i : nat) (f : Task.t loc -> Task.t loc) :
  Workflow.tasks w' = alter f i (Workflow.tasks w) ->
  (forall t, Workflow.tasks w !! i = Some t -> skeleton (f t) = skeleton t) ->
  (forall t, Workflow.tasks w !! i = Some t ->
             Task.status (f t) = TaskStatus.COMPLETED ->
             Task.approvers t = [] \/ Task.status t = TaskStatus.COMPLETED) ->
  evolves w w'.
Proof.
  intros Ht Hsk Hst. split.
  - rewrite Ht. apply list_eq. intros k. rewrite !list_lookup_fmap.
    destruct (decide (i = k)) as [->|Hne].
    + rewrite list_lookup_alter_eq.
      destruct (Workflow.tasks w !! k) as [t|] eqn:Hk; [|done].
      simpl. f_equal. by apply Hsk.
    + by rewrite list_lookup_alter_ne.
  - intros k t' Hk Ha Hc. rewrite Ht in Hk.
    destruct (decide (i = k)) as [->|Hne].
    + rewrite list_lookup_alter_eq in Hk.
      destruct (Workflow.tasks w !! k) as [t|] eqn:Hwk; [|done].
      injection Hk as <-.
      exists t. split; [done|].
      destruct (Hst t eq_refl Hc) as [Hnil|]; [|done].
      rewrite <- (skeleton_approvers _ _ (Hsk t eq_refl)) in Hnil. done.
    + rewrite list_lookup_alter_ne in Hk by done. eauto.
Qed.

Lemma find_task_NoDup (l : list (Task.t loc)) (c : nat) (t : Task.t loc) :
  NoDup (Task.id <$> l) ->
  l !! c = Some t ->
  find_task (Task.id t) l = Some (c, t).
Proof.
  intros Hnd Hc. unfold find_task. apply list_find_Some.
  split; [done|]. split; [done|].
  intros j y Hj Hlt Hid.
  assert (j = c); [|lia].
  eapply (NoDup_lookup _ _ _ _ Hnd); rewrite list_lookup_fmap.
  - rewrite Hj. simpl. by rewrite Hid.
  - by rewrite Hc.
Qed.

Lemma find_task_NoDup_inv (l : list (Task.t loc)) (c i : nat) (t t' : Task.t loc) :
  NoDup (Task.id <$> l) ->
  l !! c = Some t ->
  find_task (Task.id t) l = Some (i, t') ->
  i = c /\ t' = t.
Proof.
  intros Hnd Hc Hf. rewrite (find_task_NoDup _ _ _ Hnd Hc) in Hf. by simplify_eq.
Qed.

(** ** The contracts of task processing *)

Lemma task_handlers_put wid w e : task_handlers (put_wf wid w e) = task_handlers e.
Proof. reflexivity. Qed.

Lemma heap_put wid w e : heap (put_wf wid w e) = heap e.
Proof. reflexivity. Qed.

Lemma evolves_refl w : evolves w w.
Proof. by apply evolves_same_tasks. Qed.

Lemma advance_refl c P w : advance c P w w.
Proof. split; auto. Qed.

Lemma NoDup_evolves w w' : evolves w w' -> NoDup (task_ids w) -> NoDup (task_ids w').
Proof. intros [Hs _] H. by rewrite (skeleton_task_ids _ _ Hs). Qed.

Lemma length_evolves w w' :
  evolves w w' -> length (Workflow.tasks w') = length (Workflow.tasks w).
Proof. intros [Hs _]. by apply skeleton_length. Qed.

(** A status written to the task at position [i]. *)
Lemma evolves_set_status w w' i s :
  Workflow.tasks w' = alter (Task.set_status s) i (Workflow.tasks w) ->
  s <> TaskStatus.COMPLETED ->
  evolves w w'.
Proof.
  intros Ht Hs. apply (evolves_alter _ _ i (Task.set_status s)); [done|done|].
  intros t _ Hc. simpl in Hc. congruence.
Qed.

Lemma advance_same c P w w' :
  Workflow.tasks w' = Workflow.tasks w ->
  Workflow.current_task_index w' = Workflow.current_task_index w ->
  advance c P w w'.
Proof. intros Ht Hc. split; [|by left]. intros k _. by rewrite Ht. Qed.

Lemma advance_alter c P w w' i f :
  Workflow.tasks w' = alter f i (Workflow.tasks w) ->
  Workflow.current_task_index w' = Workflow.current_task_index w ->
  c <= i ->
  advance c P w w'.
Proof.
  intros Ht Hc Hi. split; [|by left].
  intros k Hk. rewrite Ht. apply list_lookup_alter_ne. lia.
Qed.

Section Contracts.
Variable uuid4 : nat -> string.

Lemma complete_task_body_ok n process_next :
  process_ok n process_next ->
  complete_ok n (complete_task_body uuid4 process_next).
Proof.
  intros Hp e wid tid result w. unfold complete_task_body. exec.
  destruct (find_task tid (Workflow.tasks w)) as [[i t]|] eqn:Hf;
    [|split; eauto].
  destruct (find_task_Some _ _ _ _ Hf) as [Hi _].
  destruct (bool_decide _ || bool_decide _) eqn:Hst; [|split; eauto].
  assert (Task.status t = TaskStatus.RUNNING
          \/ Task.status t = TaskStatus.WAITING_INPUT) as Hst'.
  { apply orb_true_iff in Hst as [H|H]; apply bool_decide_eq_true in H; auto. }
  exec. destruct (Task.approvers t) as [|ap aps] eqn:Ha; cbv iota; exec.
  - set (w2 := Workflow.set_current_task_index (D:=nat) _ _).
    assert (evolves w w2) as Hev.
    { eapply evolves_alter; [reflexivity|done|]. intros t0 Ht0 _.
      left. congruence. }
    specialize (Hp (tick e) wid w2).
    destruct (process_next wid (put_wf wid w2 (tick e))) as [[] e1| |] eqn:E.
    + destruct Hp as (w' & n' & -> & Hev' & Hadv).
      erewrite bind_Ok by exact E. exec.
      exists w', n'. split; [reflexivity|]. split; [done|].
      split; [by eapply evolves_trans|].
      exists i, t. split; [done|]. split; [done|]. intros Hnd.
      destruct (Hadv (NoDup_evolves _ _ Hev Hnd)) as [Hlow Hcur].
      split.
      * intros k Hk. rewrite Hlow by (simpl; lia). simpl.
        apply list_lookup_alter_ne. lia.
      * right. split; [|done]. simpl in Hcur. lia.
    + done.
    + unfold bind. rewrite E. intros Hnd. exists i, t. split; [done|].
      specialize (Hp (NoDup_evolves _ _ Hev Hnd)).
      rewrite (length_evolves _ _ Hev) in Hp. simpl in Hp. lia.
  - do 2 eexists. split; [reflexivity|]. split; [done|].
    split.
    + simpl. eapply evolves_alter.
      * simpl. rewrite list_alter_alter_eq. reflexivity.
      * done.
      * intros t0 _ Hc. simpl in Hc. done.
    + exists i, t. split; [done|]. split; [done|]. intros _.
      eapply advance_alter; [|reflexivity|reflexivity].
      simpl. by rewrite list_alter_alter_eq.
Qed.

(** The failure block of [_execute_task]. *)
Lemma execute_failure_ok e wid w i t tid reason P :
  Workflow.tasks w !! i = Some t ->
  exists w' n',
    (mark_task_failed uuid4 wid i tid (Task.name t) reason ;;;
     mark_workflow_failed uuid4 wid (Workflow.name w) (Task.name t))
      (put_wf wid w e)
    = Ok tt (put_wf wid w' (set_uuid_draws n' e))
    /\ evolves w w'
    /\ advance i P w w'.
Proof.
  intros Hi. exec. do 2 eexists. split; [reflexivity|]. split.
  - eapply evolves_set_status; [reflexivity|done].
  - eapply advance_alter; reflexivity.
Qed.

Lemma execute_task_body_ok n complete :
  complete_ok n complete ->
  execute_ok n (execute_task_body uuid4 complete).
Proof.
  intros Hc e wid tid w. unfold execute_task_body. exec.
  destruct (find_task tid (Workflow.tasks w)) as [[i t]|] eqn:Hf.
  2:{ exists w, (uuid_draws e). split; [reflexivity|].
      split; [apply evolves_refl|]. intros _ ? ? [=]. }
  destruct (find_task_Some _ _ _ _ Hf) as [Hi _].
  exec. rewrite task_handlers_put.
  destruct (task_handlers e !! Task.type t) as [h|] eqn:Hh.
  - unfold try_except. exec. rewrite heap_put.
    destruct (h wid tid (heap_get (heap e) (Task.data t))) as [result|msg].
    + specialize (Hc e wid tid result w).
      destruct (complete wid tid result (put_wf wid w e)) as [wr e1|x e1|] eqn:E.
      * erewrite bind_Ok by exact E. exec.
        destruct Hc as (w' & n' & -> & _ & Hev & i' & t' & Hf' & _ & Hadv).
        exists w', n'. split; [done|]. split; [done|].
        intros Hnd ? ? [= <- <-]. simplify_eq.
        destruct (Hadv Hnd) as [Hlow Hcur]. split; [done|].
        destruct Hcur as [|[? ?]]; eauto.
      * erewrite bind_Raise by exact E. destruct Hc as [-> _].
        destruct (execute_failure_ok e wid w i t tid (str_exn x)
                    (is_Some (task_handlers e !! Task.type t) /\ Task.approvers t = []) Hi)
          as (w' & n' & -> & Hev & Hadv).
        exists w', n'. split; [done|]. split; [done|].
        by intros _ ? ? [= <- <-].
      * unfold bind. rewrite E. by rewrite Hf in Hc.
    + cbn [raise].
      destruct (execute_failure_ok e wid w i t tid (str_exn (HandlerException msg))
                  (is_Some (task_handlers e !! Task.type t) /\ Task.approvers t = []) Hi)
        as (w' & n' & -> & Hev & Hadv).
      exists w', n'. split; [done|]. split; [done|].
      by intros _ ? ? [= <- <-].
  - case_bool_decide as Hmanual.
    { assert (exists u, match Task.assignee t with
                        | Some (String _ _) => _notify_assignee wid tid
                        | _ => ret tt
                        end (put_wf wid w e) = Ok u (put_wf wid w e)) as [[] ->].
      { destruct (Task.assignee t) as [[|]|]; eexists;
          first [apply notify_assignee_put | reflexivity]. }
      exists w, (uuid_draws e). split; [reflexivity|].
      split; [apply evolves_refl|]. intros _ ? ? _. apply advance_refl. }
    case_bool_decide as Hinput.
    { exec.
      match goal with
      | |- context [put_wf wid ?w1 (tick e)] =>
          assert (exists u, match Task.assignee t with
                            | Some (String _ _) => _notify_assignee wid tid
                            | _ => ret tt
                            end (put_wf wid w1 (tick e))
                            = Ok u (put_wf wid w1 (tick e))) as [[] ->]
      end.
      { destruct (Task.assignee t) as [[|]|]; eexists;
          first [apply notify_assignee_put | reflexivity]. }
      do 2 eexists. split; [reflexivity|]. split.
      - eapply evolves_set_status; [reflexivity|done].
      - intros _ ? ? [= <- <-]. eapply advance_alter; reflexivity. }
    destruct (execute_failure_ok e wid w i t tid
                ("Unbekannter Task-Typ: " +:+ Task.type t)
                (is_Some (task_handlers e !! Task.type t) /\ Task.approvers t = []) Hi)
      as (w' & n' & -> & Hev & Hadv).
    exists w', n'. split; [done|]. split; [done|].
    by intros _ ? ? [= <- <-].
Qed.

Lemma process_next_task_body_ok n execute :
  execute_ok n execute ->
  process_ok (S n) (process_next_task_body uuid4 execute).
Proof.
  intros Hx e wid w. unfold process_next_task_body. exec.
  case_bool_decide as Hlen.
  { exec. do 2 eexists. split; [reflexivity|].
    split; [by apply evolves_same_tasks|]. intros _. by apply advance_same. }
  destruct (Workflow.tasks w !! Workflow.current_task_index w) as [task|] eqn:Hc.
  2:{ apply lookup_ge_None in Hc. lia. }
  destruct (dependencies_met _ _).
  2:{ exec. do 2 eexists. split; [reflexivity|].
      split; [by apply evolves_same_tasks|]. intros _. by apply advance_same. }
  exec.
  set (w1 := append_event _ _).
  assert (evolves w w1) as Hev.
  { eapply evolves_set_status; [reflexivity|done]. }
  assert (NoDup (task_ids w) ->
          find_task (Task.id task) (Workflow.tasks w1)
          = Some (Workflow.current_task_index w,
                  Task.set_status TaskStatus.RUNNING task)) as Hfind.
  { intros Hnd.
    apply (find_task_NoDup (Workflow.tasks w1) _
             (Task.set_status TaskStatus.RUNNING task)).
    - apply (NoDup_evolves _ _ Hev Hnd).
    - simpl. by rewrite list_lookup_alter_eq, Hc. }
  specialize (Hx (tick e) wid (Task.id task) w1).
  destruct (execute wid (Task.id task) (put_wf wid w1 (tick e))) as [[] e1| |].
  - destruct Hx as (w' & n' & -> & Hev' & Hadv).
    exists w', n'. split; [reflexivity|]. split; [by eapply evolves_trans|].
    intros Hnd.
    destruct (Hadv (NoDup_evolves _ _ Hev Hnd) _ _ (Hfind Hnd)) as [Hlow Hcur].
    split.
    + intros k Hk. rewrite Hlow by done. simpl.
      apply list_lookup_alter_ne. lia.
    + destruct Hcur as [|[? [? ?]]]; [by left|right].
      split; [done|]. exists task. split; [done|]. split; assumption.
  - done.
  - intros Hnd.
    destruct (Hx (NoDup_evolves _ _ Hev Hnd)) as (i & t & Hf & Hn).
    rewrite (Hfind Hnd) in Hf. injection Hf as <- <-.
    rewrite (length_evolves _ _ Hev) in Hn. lia.
Qed.

Lemma process_next_task_ok fuel : process_ok fuel (_process_next_task uuid4 fuel).
Proof.
  induction fuel as [|fuel IH].
  - intros e wid w. simpl. unfold out_of_fuel. lia.
  - simpl. by apply process_next_task_body_ok, execute_task_body_ok,
      complete_task_body_ok.
Qed.


End Contracts.

(** * Task dispatch *)

Section Dispatch.
Variable uuid4 : nat -> string.

(** C6. When the handler registered for the type of a task raises,
    [_execute_task] returns normally (the exception does not reach the
    caller): the task is FAILED, the workflow is FAILED, and the history
    gains a "task_failed" event whose reason is the message of the
    exception, followed by a "workflow_failed" event.  No other task
    changes. *)
Theorem execute_task_handler_raises (fuel : nat) (e : Engine)
    (workflow_id task_id : string) (w : Workflow.t loc) (i : nat)
    (t : Task.t loc) (handler : Handler) (msg : string) :
  workflows e !! workflow_id = Some w ->
  find_task task_id (Workflow.tasks w) = Some (i, t) ->
  task_handlers e !! Task.type t = Some handler ->
  handler workflow_id task_id (heap_get (heap e) (Task.data t)) = inr msg ->
  exists w' e',
    _execute_task uuid4 fuel workflow_id task_id e = Ok tt e'
    /\ workflows e' !! workflow_id = Some w'
    /\ Workflow.status w' = WorkflowStatus.FAILED
    /\ Workflow.tasks w'
       = <[i := Task.set_status TaskStatus.FAILED t]> (Workflow.tasks w)
    /\ Workflow.history w'
       = (Workflow.history w
         ++ [HistoryEvent.mk (uuid4 (uuid_draws e)) "task_failed"
               [("workflow_id", VStr workflow_id);
                ("task_id", VStr task_id);
                ("task_name", VStr (Task.name t));
                ("reason", VStr msg)];
             HistoryEvent.mk (uuid4 (S (uuid_draws e))) "workflow_failed"
               [("workflow_id", VStr workflow_id);
                ("workflow_name", VStr (Workflow.name w));
                ("reason", VStr ("Task fehlgeschlagen: " +:+ Task.name t))]])%list.
Proof.
  intros Hw Hf Hh Hraise.
  destruct (find_task_Some _ _ _ _ Hf) as [Hi _].
  rewrite (put_wf_id e workflow_id w Hw).
  unfold _execute_task, execute_task_body. exec. rewrite Hf. exec.
  rewrite task_handlers_put, Hh.
  unfold try_except. exec. rewrite heap_put, Hraise. cbn [raise]. exec.
  do 2 eexists. split; [reflexivity|].
  split; [apply lookup_put_wf|]. simpl.
  split; [done|]. split.
  - by apply alter_as_insert.
  - by rewrite <- app_assoc.
Qed.
End Dispatch.

(** * Approval *)

Lemma check_approvals_pending (l : list Approval.t) (r : bool) :
  some_pending l = true -> (check_approvals l r).1 = false.
Proof.
  revert r. induction l as [|a l IH]; intros r; [done|].
  simpl. case_bool_decide; [done|]. simpl. intros Hl.
  case_bool_decide; by apply IH.
Qed.

Lemma check_approvals_resolved (l : list Approval.t) (r : bool) :
  some_pending l = false -> check_approvals l r = (true, r || some_rejected l).
Proof.
  revert r. induction l as [|a l IH]; intros r.
  - intros _. simpl. by rewrite orb_false_r.
  - simpl. case_bool_decide; [done|]. simpl. intros Hl.
    case_bool_decide; rewrite (IH _ Hl); simpl; [|done].
    by rewrite orb_true_r.
Qed.

Lemma some_rejected_insert (l : list Approval.t) (j : nat) (a : Approval.t) :
  j < length l ->
  Approval.status a = ApprovalStatus.REJECTED ->
  some_rejected (<[j := a]> l) = true.
Proof.
  intros Hj Ha. unfold some_rejected. apply existsb_exists. exists a. split.
  - apply list_elem_of_In, list_elem_of_lookup. exists j.
    by apply list_lookup_insert_eq.
  - by apply bool_decide_eq_true.
Qed.

Section Approve.
Variable uuid4 : nat -> string.

(** What [approve_task] does once its checks have passed: it records the
    verdict and a history event, and then
    - returns, when an approval of the task is still PENDING;
    - marks the task and the workflow as FAILED, when none is PENDING
      and one is REJECTED;
    - moves the cursor behind the task and processes the next task,
      otherwise. *)
Lemma approve_task_exec (fuel : nat) (e : Engine)
    (wid tid aid : string) (approved : bool) (comment : string)
    (w : Workflow.t loc) (i : nat) (t : Task.t loc) (j : nat) (a : Approval.t) :
  find_task tid (Workflow.tasks w) = Some (i, t) ->
  Task.status t = TaskStatus.WAITING_APPROVAL ->
  find_approval aid (Task.approvals t) = Some (j, a) ->
  Approval.status a = ApprovalStatus.PENDING ->
  let approvals' := <[j := verdict approved comment a]> (Task.approvals t) in
  exists w1,
    Workflow.tasks w1 = <[i := Task.set_approvals approvals' t]> (Workflow.tasks w)
    /\ Workflow.status w1 = Workflow.status w
    /\ Workflow.current_task_index w1 = Workflow.current_task_index w
    /\ match some_pending approvals', some_rejected approvals' with
       | true, _ =>
           approve_task uuid4 fuel wid tid aid approved comment (put_wf wid w e)
           = Ok w1 (put_wf wid w1 (tick e))
       | false, true =>
           exists w2,
             approve_task uuid4 fuel wid tid aid approved comment (put_wf wid w e)
             = Ok w2 (put_wf wid w2 (tick (tick (tick e))))
             /\ Workflow.tasks w2
                = alter (Task.set_status TaskStatus.FAILED) i (Workflow.tasks w1)
             /\ Workflow.status w2 = WorkflowStatus.FAILED
             /\ Workflow.current_task_index w2 = Workflow.current_task_index w
       | false, false =>
           approve_task uuid4 fuel wid tid aid approved comment (put_wf wid w e)
           = bind (_process_next_task uuid4 fuel wid) (fun _ => the_workflow wid)
               (put_wf wid (Workflow.set_current_task_index (i + 1) w1) (tick e))
       end.
Proof.
  intros Hf Hst Hfa Hsa approvals'.
  destruct (find_task_Some _ _ _ _ Hf) as [Hi _].
  destruct (find_approval_Some _ _ _ _ Hfa) as [Hj _].
  unfold approve_task. exec. rewrite Hf.
  rewrite bool_decide_eq_true_2 by done. rewrite Hfa.
  rewrite bool_decide_eq_true_2 by done. exec.
  set (w1 := append_event _ _).
  assert (Workflow.tasks w1
          = <[i := Task.set_approvals approvals' t]> (Workflow.tasks w)) as Ht1.
  { simpl. rewrite (alter_as_insert _ _ _ _ Hi). f_equal.
    unfold Task.set_approvals. simpl. by rewrite (alter_as_insert _ _ _ _ Hj). }
  exists w1. split; [done|]. split; [done|]. split; [done|].
  erewrite bind_Ok; cycle 1.
  { apply the_task_put. rewrite Ht1. apply list_lookup_insert_eq.
    by eapply lookup_lt_Some. }
  cbv beta. simpl (Task.approvals _).
  destruct (some_pending approvals') eqn:Hp.
  - pose proof (check_approvals_pending _ false Hp) as Hc.
    destruct (check_approvals approvals' false) as [[|] r]; [done|].
    by exec.
  - rewrite (check_approvals_resolved _ false Hp). simpl (false || _).
    destruct (some_rejected approvals'); [|by exec].
    exec. eexists. split; [reflexivity|]. done.
Qed.

(** C1, as the code has it.  A rejection by [approve_task] is recorded at once, but
    it makes the task and the workflow FAILED only when no approval of
    the task is PENDING any more; while another approval is PENDING the
    task stays WAITING_APPROVAL and the status of the workflow is
    unchanged.  The cursor does not move in either case. *)
Theorem approve_task_rejection (fuel : nat) (e : Engine)
    (workflow_id task_id approval_id comment : string)
    (w : Workflow.t loc) (i : nat) (t : Task.t loc) (j : nat) (a : Approval.t) :
  workflows e !! workflow_id = Some w ->
  find_task task_id (Workflow.tasks w) = Some (i, t) ->
  Task.status t = TaskStatus.WAITING_APPROVAL ->
  find_approval approval_id (Task.approvals t) = Some (j, a) ->
  Approval.status a = ApprovalStatus.PENDING ->
  let approvals' := <[j := verdict false comment a]> (Task.approvals t) in
  exists w' e',
    approve_task uuid4 fuel workflow_id task_id approval_id false comment e
    = Ok w' e'
    /\ workflows e' !! workflow_id = Some w'
    /\ Workflow.current_task_index w' = Workflow.current_task_index w
    /\ if some_pending approvals' then
         Workflow.status w' = Workflow.status w
         /\ Workflow.tasks w'
            = <[i := Task.set_approvals approvals' t]> (Workflow.tasks w)
         /\ Task.status (Task.set_approvals approvals' t)
            = TaskStatus.WAITING_APPROVAL
       else
         Workflow.status w' = WorkflowStatus.FAILED
         /\ Workflow.tasks w'
            = <[i := Task.set_status TaskStatus.FAILED
                       (Task.set_approvals approvals' t)]> (Workflow.tasks w).
Proof.
  intros Hw Hf Hst Hfa Hsa approvals'.
  destruct (find_task_Some _ _ _ _ Hf) as [Hi _].
  destruct (find_approval_Some _ _ _ _ Hfa) as [Hj _].
  rewrite (put_wf_id e workflow_id w Hw).
  destruct (approve_task_exec fuel e workflow_id task_id approval_id false comment
              w i t j a Hf Hst Hfa Hsa) as (w1 & Ht1 & Hs1 & Hc1 & Hrun).
  fold approvals' in Ht1, Hrun.
  destruct (some_pending approvals').
  - exists w1. eexists. split; [exact Hrun|].
    split; [apply lookup_put_wf|]. by repeat split.
  - assert (some_rejected approvals' = true) as Hr.
    { apply some_rejected_insert; [by eapply lookup_lt_Some|done]. }
    rewrite Hr in Hrun.
    destruct Hrun as (w2 & Hrun & Ht2 & Hs2 & Hc2).
    exists w2. eexists. split; [exact Hrun|].
    split; [apply lookup_put_wf|]. split; [done|]. split; [done|].
    rewrite Ht2, Ht1.
    rewrite (alter_as_insert _ _ _ (Task.set_approvals approvals' t)).
    + by rewrite list_insert_insert_eq.
    + apply list_lookup_insert_eq. by eapply lookup_lt_Some.
Qed.

Lemma find_approval_insert_other (l : list Approval.t) (ida idb : string)
    (ja jb : nat) (a b x : Approval.t) :
  find_approval ida l = Some (ja, a) ->
  find_approval idb l = Some (jb, b) ->
  ja <> jb ->
  Approval.id x = ida ->
  find_approval idb (<[ja := x]> l) = Some (jb, b).
Proof.
  unfold find_approval. rewrite !list_find_Some.
  intros (Ha & Hida & Hmina) (Hb & Hidb & Hminb) Hne Hx.
  assert (ida <> idb) as Hid.
  { intros Heq. destruct (Nat.lt_total ja jb) as [Hlt|[?|Hlt]]; [|done|].
    - apply (Hminb ja a Ha Hlt). congruence.
    - apply (Hmina jb b Hb Hlt). congruence. }
  split; [by rewrite list_lookup_insert_ne|]. split; [done|].
  intros k y Hk Hlt. destruct (decide (ja = k)) as [->|Hk'].
  - rewrite list_lookup_insert_eq in Hk by (by eapply lookup_lt_Some).
    injection Hk as <-. congruence.
  - rewrite list_lookup_insert_ne in Hk by done. by eapply Hminb.
Qed.

(** When two approvals are PENDING and every other one is DELEGATED,
    the first approval leaves one PENDING, and the second leaves none
    PENDING and none REJECTED. *)
Lemma two_live_approvals (l : list Approval.t) (ja jb : nat)
    (a b : Approval.t) (ca cb : string) :
  l !! ja = Some a ->
  l !! jb = Some b ->
  ja <> jb ->
  Approval.status b = ApprovalStatus.PENDING ->
  (forall k c, l !! k = Some c -> k <> ja -> k <> jb ->
               Approval.status c = ApprovalStatus.DELEGATED) ->
  let l1 := <[ja := verdict true ca a]> l in
  let l2 := <[jb := verdict true cb b]> l1 in
  some_pending l1 = true /\ some_pending l2 = false /\ some_rejected l2 = false.
Proof.
  intros Ha Hb Hne Hsb Hother l1 l2.
  assert (forall k c, l2 !! k = Some c ->
                      Approval.status c = ApprovalStatus.APPROVED
                      \/ Approval.status c = ApprovalStatus.DELEGATED) as Hall.
  { intros k c Hk. unfold l2, l1 in Hk.
    destruct (decide (jb = k)) as [->|Hkb].
    - rewrite list_lookup_insert_eq in Hk.
      + injection Hk as <-. by left.
      + rewrite length_insert. by eapply lookup_lt_Some.
    - rewrite list_lookup_insert_ne in Hk by done.
      destruct (decide (ja = k)) as [->|Hka].
      + rewrite list_lookup_insert_eq in Hk by (by eapply lookup_lt_Some).
        injection Hk as <-. by left.
      + rewrite list_lookup_insert_ne in Hk by done. right. by eapply Hother. }
  split; [|split].
  - unfold some_pending. apply existsb_exists. exists b. split.
    + apply list_elem_of_In, list_elem_of_lookup. exists jb.
      unfold l1. by rewrite list_lookup_insert_ne.
    + by apply bool_decide_eq_true.
  - apply not_true_is_false. unfold some_pending.
    rewrite existsb_exists. intros (c & Hin & Hc).
    apply list_elem_of_In, list_elem_of_lookup in Hin as [k Hk].
    apply bool_decide_eq_true in Hc. destruct (Hall k c Hk); congruence.
  - apply not_true_is_false. unfold some_rejected.
    rewrite existsb_exists. intros (c & Hin & Hc).
    apply list_elem_of_In, list_elem_of_lookup in Hin as [k Hk].
    apply bool_decide_eq_true in Hc. destruct (Hall k c Hk); congruence.
Qed.

(** C2, as the code has it.  Let a task at the cursor be in WAITING_APPROVAL with
    exactly two live approvals [a] and [b] (both PENDING, every other
    approval DELEGATED), in a workflow with pairwise distinct task ids.
    Approving [a] alone leaves the task in WAITING_APPROVAL and the
    cursor where it is.  Approving [b] as well makes [approve_task] set
    the cursor to the position behind the task and process the task
    there: the call returns with the task still in WAITING_APPROVAL
    and the cursor exactly one further, unless the next task is of a
    type with a registered handler and has no approvers, in which case
    it may have completed within the same call and the cursor is
    further on. *)
Theorem approve_task_unanimous (fuel : nat) (e : Engine)
    (workflow_id task_id id_a id_b comment_a comment_b : string)
    (w : Workflow.t loc) (i : nat) (t : Task.t loc)
    (ja jb : nat) (a b : Approval.t) :
  workflows e !! workflow_id = Some w ->
  NoDup (task_ids w) ->
  find_task task_id (Workflow.tasks w) = Some (i, t) ->
  Workflow.current_task_index w = i ->
  Task.status t = TaskStatus.WAITING_APPROVAL ->
  find_approval id_a (Task.approvals t) = Some (ja, a) ->
  find_approval id_b (Task.approvals t) = Some (jb, b) ->
  ja <> jb ->
  Approval.status a = ApprovalStatus.PENDING ->
  Approval.status b = ApprovalStatus.PENDING ->
  (forall k c, Task.approvals t !! k = Some c -> k <> ja -> k <> jb ->
               Approval.status c = ApprovalStatus.DELEGATED) ->
  length (Workflow.tasks w) - i <= fuel ->
  exists w1 e1,
    approve_task uuid4 fuel workflow_id task_id id_a true comment_a e = Ok w1 e1
    /\ workflows e1 !! workflow_id = Some w1
    /\ Workflow.current_task_index w1 = i
    /\ (exists t1, Workflow.tasks w1 !! i = Some t1
                   /\ Task.status t1 = TaskStatus.WAITING_APPROVAL)
    /\ exists w2 e2,
         approve_task uuid4 fuel workflow_id task_id id_b true comment_b e1
         = Ok w2 e2
         /\ workflows e2 !! workflow_id = Some w2
         /\ (exists t2, Workflow.tasks w2 !! i = Some t2
                        /\ Task.status t2 = TaskStatus.WAITING_APPROVAL)
         /\ (Workflow.current_task_index w2 = i + 1
             \/ (i + 1 < Workflow.current_task_index w2
                 /\ exists next,
                      Workflow.tasks w !! (i + 1) = Some next
                      /\ is_Some (task_handlers e !! Task.type next)
                      /\ Task.approvers next = [])).
Proof.
  intros Hw Hnd Hf Hcur Hst Hfa Hfb Hne Hsa Hsb Hother Hfuel.
  destruct (find_task_Some _ _ _ _ Hf) as [Hi Hid].
  destruct (find_approval_Some _ _ _ _ Hfa) as [Hja Hida].
  destruct (find_approval_Some _ _ _ _ Hfb) as [Hjb Hidb].
  pose proof (lookup_lt_Some _ _ _ Hi) as Hlen.
  destruct (two_live_approvals _ ja jb a b comment_a comment_b
              Hja Hjb Hne Hsb Hother) as (Hp1 & Hp2 & Hr2).
  rewrite (put_wf_id e workflow_id w Hw).
  (* the first approval *)
  destruct (approve_task_exec fuel e workflow_id task_id id_a true comment_a
              w i t ja a Hf Hst Hfa Hsa) as (w1 & Ht1 & Hs1 & Hc1 & Hrun1).
  cbv zeta in Ht1, Hrun1. rewrite Hp1 in Hrun1.
  set (t1 := Task.set_approvals
               (<[ja := verdict true comment_a a]> (Task.approvals t)) t) in *.
  assert (Workflow.tasks w1 !! i = Some t1) as Hi1.
  { rewrite Ht1. by apply list_lookup_insert_eq. }
  exists w1. eexists. split; [exact Hrun1|].
  split; [apply lookup_put_wf|]. split; [congruence|].
  split; [by exists t1|].
  (* the second approval *)
  assert (evolves w w1) as Hev1.
  { eapply (evolves_alter _ _ i (fun _ => t1)).
    - by rewrite <- list_insert_alter.
    - intros t0 Ht0. rewrite Hi in Ht0. by injection Ht0 as <-.
    - intros t0 _ Hc. simpl in Hc. congruence. }
  assert (find_task task_id (Workflow.tasks w1) = Some (i, t1)) as Hf1.
  { rewrite <- Hid. apply (find_task_NoDup _ _ t1); [|done].
    apply (NoDup_evolves _ _ Hev1 Hnd). }
  assert (find_approval id_b (Task.approvals t1) = Some (jb, b)) as Hfb1.
  { by eapply find_approval_insert_other. }
  destruct (approve_task_exec fuel (tick e) workflow_id task_id id_b true comment_b
              w1 i t1 jb b Hf1 Hst Hfb1 Hsb) as (w2 & Ht2 & Hs2 & Hc2 & Hrun2).
  cbv zeta in Ht2, Hrun2. simpl (Task.approvals t1) in Hrun2.
  rewrite Hp2, Hr2 in Hrun2.
  set (t2 := Task.set_approvals _ t1) in *.
  set (w3 := Workflow.set_current_task_index (i + 1) w2) in *.
  assert (evolves w1 w3) as Hev2.
  { eapply (evolves_alter _ _ i (fun _ => t2)).
    - simpl. rewrite Ht2. by rewrite <- list_insert_alter.
    - intros t0 Ht0. rewrite Hi1 in Ht0. by injection Ht0 as <-.
    - intros t0 _ Hc. simpl in Hc. congruence. }
  assert (NoDup (task_ids w3)) as Hnd3.
  { eapply NoDup_evolves; [exact Hev2|]. by eapply NoDup_evolves. }
  pose proof (process_next_task_ok uuid4 fuel (tick (tick e)) workflow_id w3) as Hp.
  rewrite Hrun2.
  destruct (_process_next_task uuid4 fuel workflow_id
              (put_wf workflow_id w3 (tick (tick e)))) as [[] e3| |] eqn:E.
  - destruct Hp as (w' & n' & -> & Hev' & Hadv).
    destruct (Hadv Hnd3) as [Hlow Hcursor].
    erewrite bind_Ok by exact E. rewrite the_workflow_put.
    exists w'. eexists. split; [reflexivity|].
    split; [apply lookup_put_wf|]. split.
    + exists t2. split; [|done]. rewrite Hlow by (simpl; lia).
      simpl. rewrite Ht2. apply list_lookup_insert_eq.
      rewrite Ht1, length_insert. done.
    + simpl in Hcursor. destruct Hcursor as [Hsame|[Hlt (next & Hn & Hh & Ha)]].
      * by left.
      * right. split; [lia|]. exists next. split; [|done].
        simpl in Hn. rewrite Ht2, Ht1 in Hn.
        rewrite !list_lookup_insert_ne in Hn by lia. done.
  - done.
  - specialize (Hp Hnd3). simpl in Hp.
    rewrite Ht2, Ht1, !length_insert in Hp. lia.
Qed.
End Approve.

(** * The public operations respect [evolves] *)



Section Calls.
Variable uuid4 : nat -> string.









End Calls.

(** * Tasks with approvers are never COMPLETED *)



Section Gate.
Variable uuid4 : nat -> string.



End Gate.

(** * Dependency gating *)



Section Waiting.
Variable uuid4 : nat -> string.



End Waiting.

(** * Instantiating a template *)

Lemma set_uuid_draws_same (e : Engine) (n m : nat) :
  n = m -> set_uuid_draws n e = set_uuid_draws m e.
Proof. by intros ->. Qed.

Lemma tasks_ids_cons {D} (t : Task.t D) (l : list (Task.t D)) :
  tasks_ids (t :: l) = (task_and_approval_ids t ++ tasks_ids l)%list.
Proof. reflexivity. Qed.

Section Create.
Variable uuid4 : nat -> string.

Lemma new_approvals_run (approvers : list string) (e : Engine) :
  exists approvals,
    for_each (new_approval uuid4) approvers e
    = Ok approvals (set_uuid_draws (uuid_draws e + length approvers) e)
    /\ Approval.id <$> approvals = uuid4 <$> seq (uuid_draws e) (length approvers)
    /\ Approval.approver <$> approvals = approvers
    /\ Forall (fun a => Approval.status a = ApprovalStatus.PENDING) approvals.
Proof.
  revert e. induction approvers as [|ap aps IH]; intros e.
  - exists []. simpl. unfold ret. split; [|done].
    f_equal. destruct e. unfold set_uuid_draws. simpl. f_equal. lia.
  - destruct (IH (tick e)) as (l & Hrun & Hids & Haps & Hst).
    eexists. simpl. split; [|split; [|split]].
    + erewrite bind_Ok by reflexivity.
      erewrite bind_Ok by exact Hrun. unfold ret. f_equal.
      unfold tick, set_uuid_draws. simpl. f_equal. lia.
    + rewrite fmap_cons, Hids. reflexivity.
    + rewrite fmap_cons, Haps. reflexivity.
    + by constructor.
Qed.

Lemma new_task_run (task_template : TaskTemplate.t) (e : Engine) :
  exists t e',
    new_task uuid4 task_template e = Ok t e'
    /\ same_stores e e'
    /\ made_from task_template t
    /\ uuid_draws e' = uuid_draws e + length (task_and_approval_ids t)
    /\ task_and_approval_ids t
       = uuid4 <$> seq (uuid_draws e) (length (task_and_approval_ids t)).
Proof.
  unfold new_task.
  set (approvers := default [] (TaskTemplate.approvers task_template)).
  assert (exists l e1,
             match TaskTemplate.data task_template with
             | Some l => ret l
             | None => alloc []
             end (tick e) = Ok l e1
             /\ same_stores e e1
             /\ uuid_draws e1 = S (uuid_draws e)
             /\ (forall l', TaskTemplate.data task_template = Some l' -> l = l'))
    as (l & e1 & Hdata & Hsame & Hn & Hl).
  { destruct (TaskTemplate.data task_template) as [l|].
    - exists l, (tick e). repeat split; congruence.
    - do 2 eexists. split; [reflexivity|]. by repeat split. }
  destruct (new_approvals_run approvers e1) as (approvals & Hrun & Hids & Haps & Hst).
  do 2 eexists. split; [|split; [|split; [|split]]].
  - erewrite bind_Ok by reflexivity.
    erewrite bind_Ok by exact Hdata.
    erewrite bind_Ok by exact Hrun. reflexivity.
  - destruct Hsame as (? & ? & ?). by repeat split.
  - by repeat split.
  - unfold task_and_approval_ids. simpl.
    rewrite length_fmap.
    assert (length approvals = length approvers) as ->.
    { by rewrite <- Haps, length_fmap. }
    lia.
  - unfold task_and_approval_ids. simpl. f_equal.
    by rewrite Hids, !length_fmap, length_seq, Hn.
Qed.

Lemma new_tasks_run (task_templates : list TaskTemplate.t) (e : Engine) :
  exists tasks e',
    for_each (new_task uuid4) task_templates e = Ok tasks e'
    /\ same_stores e e'
    /\ Forall2 made_from task_templates tasks
    /\ uuid_draws e' = uuid_draws e + length (tasks_ids tasks)
    /\ tasks_ids tasks = uuid4 <$> seq (uuid_draws e) (length (tasks_ids tasks)).
Proof.
  revert e. induction task_templates as [|tt tts IH]; intros e.
  - exists [], e. simpl. split; [done|]. split; [done|]. split; [done|].
    split; [lia|done].
  - destruct (new_task_run tt e) as (t & e1 & Hrun1 & Hsame1 & Hmade & Hn1 & Hids1).
    destruct (IH e1) as (tasks & e2 & Hrun2 & Hsame2 & Hall & Hn2 & Hids2).
    exists (t :: tasks), e2. split; [|split; [|split; [|split]]].
    + simpl. erewrite bind_Ok by exact Hrun1.
      erewrite bind_Ok by exact Hrun2. reflexivity.
    + destruct Hsame1 as (? & ? & ?), Hsame2 as (? & ? & ?).
      repeat split; congruence.
    + by constructor.
    + rewrite tasks_ids_cons, length_app. lia.
    + rewrite tasks_ids_cons, length_app, seq_app, fmap_app.
      rewrite <- Hids1. f_equal. rewrite <- Hn1. exact Hids2.
Qed.

Lemma draws_NoDup (n len : nat) :
  Inj (=) (=) uuid4 -> NoDup (uuid4 <$> seq n len).
Proof. intros Hinj. apply (NoDup_fmap_2 _). apply NoDup_seq. Qed.

Lemma draws_fresh (n len : nat) (used : list string) (x : string) :
  (forall k, n <= k -> uuid4 k ∉ used) ->
  x ∈ uuid4 <$> seq n len ->
  x ∉ used.
Proof.
  intros Hfresh Hx. apply list_elem_of_fmap in Hx as (k & -> & Hk).
  apply Hfresh. apply elem_of_seq in Hk. lia.
Qed.

(** C5. [create_workflow] raises a [ValueError], and changes nothing,
    when no template is registered under the id.  Otherwise it returns
    the id of a workflow it has stored under that id: the workflow is
    CREATED with the cursor at 0, has one task for each task of the
    template (in the same order, with the fields of the template), and
    its own id, its task ids and its approval ids are consecutive draws
    of [uuid4], one draw each.  Hence they are pairwise distinct when
    [uuid4] does not repeat itself, and none of them is among any
    identifiers that the later draws of [uuid4] avoid, such as the ids
    written in the template. *)
Theorem create_workflow_spec (e : Engine) (template_id : string) (data : value) :
  match workflow_templates e !! template_id with
  | None =>
      exists msg,
        create_workflow uuid4 template_id data e = Raise (ValueError msg) e
  | Some template =>
      exists w e',
        create_workflow uuid4 template_id data e = Ok (Workflow.id w) e'
        /\ workflows e' !! Workflow.id w = Some w
        /\ workflow_templates e' = workflow_templates e
        /\ Workflow.status w = WorkflowStatus.CREATED
        /\ Workflow.current_task_index w = 0
        /\ Forall2 made_from (default [] (WorkflowTemplate.tasks template))
              (Workflow.tasks w)
        /\ length (Workflow.tasks w)
           = length (default [] (WorkflowTemplate.tasks template))
        /\ all_ids w = uuid4 <$> seq (uuid_draws e) (length (all_ids w))
        /\ (Inj (=) (=) uuid4 -> NoDup (all_ids w))
        /\ (forall used : list string,
              (forall k, uuid_draws e <= k -> uuid4 k ∉ used) ->
              forall x, x ∈ all_ids w -> x ∉ used)
  end.
Proof.
  destruct (workflow_templates e !! template_id) as [template|] eqn:HT.
  2:{ eexists. unfold create_workflow.
      erewrite bind_Ok by reflexivity. cbv beta. by rewrite HT. }
  unfold create_workflow.
  erewrite bind_Ok by reflexivity. cbv beta. rewrite HT.
  erewrite bind_Ok by reflexivity. cbv beta.
  destruct (new_tasks_run (default [] (WorkflowTemplate.tasks template)) (tick e))
    as (tasks & e2 & Hrun & (Hws & Hts & Hhs) & Hmade & Hn & Hids).
  erewrite bind_Ok by exact Hrun. cbv beta zeta.
  erewrite bind_Ok by reflexivity. cbv beta.
  match goal with
  | |- context [set_workflows (<[?k := ?v]> (workflows e2)) e2] =>
      change (set_workflows (<[k := v]> (workflows e2)) e2) with (put_wf k v e2)
  end.
  exec. unfold ret.
  set (W := append_event _ _).
  exists W. eexists. split; [reflexivity|].
  split; [apply lookup_put_wf|].
  split; [done|]. split; [done|]. split; [done|]. split; [done|].
  split; [symmetry; by eapply Forall2_length|].
  assert (all_ids W = uuid4 <$> seq (uuid_draws e) (S (length (tasks_ids tasks))))
    as Hall.
  { unfold all_ids. simpl. f_equal. exact Hids. }
  split; [|split].
  - rewrite Hall at 1. by rewrite Hall, length_fmap, length_seq.
  - intros Hinj. rewrite Hall. by apply draws_NoDup.
  - intros used Hfresh x Hx. rewrite Hall in Hx. by eapply draws_fresh.
Qed.
End Create.

(** * Export and import *)

Section Renaming.
Variable uuid4 : nat -> string.

Lemma renamed_nil n m : renamed uuid4 [] n m m.
Proof.
  split; [done|]. split.
  - intros x Hx. by apply elem_of_nil in Hx.
  - intros _ k o Hk. done.
Qed.

Lemma renamed_single o n m : renamed uuid4 [o] n m (<[o := uuid4 n]> m).
Proof.
  split; [|split].
  - intros x Hx. apply lookup_insert_ne. intros ->. apply Hx. by left.
  - intros x Hx. apply list_elem_of_singleton in Hx as ->.
    exists 0. split; [done|]. rewrite Nat.add_0_r. apply lookup_insert_eq.
  - intros _ k x Hk. destruct k as [|k]; [|done].
    injection Hk as ->. rewrite Nat.add_0_r. apply lookup_insert_eq.
Qed.

Lemma renamed_app o1 o2 n m m1 m2 :
  renamed uuid4 o1 n m m1 ->
  renamed uuid4 o2 (n + length o1) m1 m2 ->
  renamed uuid4 (o1 ++ o2) n m m2.
Proof.
  intros (Hout1 & Hin1 & Hnd1) (Hout2 & Hin2 & Hnd2). split; [|split].
  - intros x Hx. rewrite elem_of_app in Hx.
    rewrite Hout2 by tauto. apply Hout1. tauto.
  - intros x Hx. destruct (decide (x ∈ o2)) as [Hx2|Hx2].
    + destruct (Hin2 x Hx2) as (k & Hk & Hm).
      exists (length o1 + k). split.
      * rewrite lookup_app_r by lia. by replace (length o1 + k - length o1) with k by lia.
      * by rewrite Nat.add_assoc.
    + rewrite elem_of_app in Hx. destruct Hx as [Hx1|]; [|done].
      destruct (Hin1 x Hx1) as (k & Hk & Hm).
      exists k. split; [by apply lookup_app_l_Some|].
      by rewrite Hout2.
  - intros Hnd k o Hk. apply NoDup_app in Hnd as (Hn1 & Hdisj & Hn2).
    destruct (decide (k < length o1)) as [Hlt|Hge].
    + rewrite lookup_app_l in Hk by done.
      rewrite Hout2; [by apply Hnd1|].
      apply Hdisj. apply list_elem_of_lookup. eauto.
    + rewrite lookup_app_r in Hk by lia.
      rewrite (Hnd2 Hn2 _ _ Hk). f_equal. f_equal. lia.
Qed.

Lemma renew_approvals_run (l : list Approval.t) (m : gmap string string)
    (e : Engine) :
  exists l' m',
    renew_approvals uuid4 l m e
    = Ok (l', m') (set_uuid_draws (uuid_draws e + length l) e)
    /\ Approval.id <$> l' = uuid4 <$> seq (uuid_draws e) (length l)
    /\ Approval.set_id "" <$> l' = Approval.set_id "" <$> l
    /\ renamed uuid4 (Approval.id <$> l) (uuid_draws e) m m'.
Proof.
  revert m e. induction l as [|a l IH]; intros m e.
  - exists [], m. split; [|split; [|split]]; try done.
    + simpl. unfold ret. f_equal. destruct e. unfold set_uuid_draws. simpl.
      f_equal. lia.
    + apply renamed_nil.
  - destruct (IH (<[Approval.id a := uuid4 (uuid_draws e)]> m) (tick e))
      as (l' & m' & Hrun & Hids & Hsame & Hren).
    eexists _, m'. split; [|split; [|split]].
    + simpl. erewrite bind_Ok by reflexivity.
      erewrite bind_Ok by exact Hrun. unfold ret. simpl. f_equal.
      unfold tick, set_uuid_draws. simpl. f_equal. lia.
    + rewrite fmap_cons, Hids. reflexivity.
    + rewrite !fmap_cons, Hsame. reflexivity.
    + rewrite fmap_cons.
      apply (renamed_app [Approval.id a] _ _ _ _ _ (renamed_single _ _ _)).
      simpl. by rewrite Nat.add_1_r.
Qed.

Lemma renew_tasks_run (tasks : list (Task.t loc)) (m : gmap string string)
    (e : Engine) :
  exists tasks' m',
    renew_tasks uuid4 tasks m e
    = Ok (tasks', m') (set_uuid_draws (uuid_draws e + length (tasks_ids tasks)) e)
    /\ tasks_ids tasks' = uuid4 <$> seq (uuid_draws e) (length (tasks_ids tasks))
    /\ anonymous <$> tasks' = anonymous <$> tasks
    /\ Task.dependencies <$> tasks' = Task.dependencies <$> tasks
    /\ renamed uuid4 (tasks_ids tasks) (uuid_draws e) m m'
    /\ (NoDup (tasks_ids tasks) ->
        Forall2 (fun t t' => m' !! Task.id t = Some (Task.id t')) tasks tasks').
Proof.
  revert m e. induction tasks as [|t tasks IH]; intros m e.
  - exists [], m. split; [|split; [|split; [|split; [|split]]]]; try done.
    + simpl. unfold ret. f_equal. destruct e. unfold set_uuid_draws. simpl.
      f_equal. lia.
    + apply renamed_nil.
  - set (n := uuid_draws e).
    destruct (renew_approvals_run (Task.approvals t) (<[Task.id t := uuid4 n]> m)
                (tick e)) as (l' & ma & Hrun1 & Hids1 & Hsame1 & Hren1).
    destruct (IH ma (set_uuid_draws (uuid_draws (tick e) + length (Task.approvals t))
                       (tick e)))
      as (tasks' & m' & Hrun2 & Hids2 & Hsame2 & Hdeps2 & Hren2 & Hmap2).
    assert (length (task_and_approval_ids t) = S (length (Task.approvals t))) as Hlen.
    { unfold task_and_approval_ids. simpl. by rewrite length_fmap. }
    assert (renamed uuid4 (task_and_approval_ids t) n m ma) as Hren_t.
    { apply (renamed_app [Task.id t] _ _ _ _ _ (renamed_single _ _ _)).
      simpl. by rewrite Nat.add_1_r. }
    eexists _, m'. split; [|split; [|split; [|split; [|split]]]].
    + cbn [renew_tasks]. erewrite bind_Ok by reflexivity.
      erewrite bind_Ok by exact Hrun1.
      erewrite bind_Ok by exact Hrun2. unfold ret. cbn [fst snd]. f_equal.
      rewrite tasks_ids_cons, length_app, Hlen.
      unfold tick, set_uuid_draws.
      cbn [workflows workflow_templates task_handlers heap uuid_draws].
      f_equal. lia.
    + rewrite !tasks_ids_cons, length_app, seq_app, fmap_app. f_equal.
      * rewrite Hlen. unfold task_and_approval_ids. cbn [Task.id Task.approvals
          Task.set_approvals Task.set_id]. rewrite Hids1. reflexivity.
      * rewrite Hids2. rewrite Hlen. f_equal. f_equal.
        cbn [tick set_uuid_draws uuid_draws]. lia.
    + rewrite !fmap_cons. f_equal; [|exact Hsame2].
      unfold anonymous. simpl. unfold Task.set_dependencies, Task.set_id,
        Task.set_approvals. simpl. by rewrite Hsame1.
    + rewrite !fmap_cons. by rewrite Hdeps2.
    + rewrite tasks_ids_cons. eapply renamed_app; [exact Hren_t|].
      simpl in Hren2. rewrite Hlen.
      by replace (n + S (length (Task.approvals t)))
        with (S (n + length (Task.approvals t))) by lia.
    + intros Hnd. rewrite tasks_ids_cons in Hnd.
      apply NoDup_app in Hnd as (Hn1 & Hdisj & Hn2).
      constructor; [|by apply Hmap2].
      simpl. destruct Hren2 as (Hout2 & _).
      destruct Hren_t as (_ & _ & Hpos).
      rewrite Hout2.
      * rewrite (Hpos Hn1 0 (Task.id t) eq_refl). by rewrite Nat.add_0_r.
      * apply Hdisj. by left.
Qed.

Lemma load_tasks_run (l : list (Task.t dict)) (e : Engine) :
  exists l0 e0,
    for_each load_task l e = Ok l0 e0
    /\ same_stores e e0
    /\ uuid_draws e0 = uuid_draws e
    /\ heap e0 = (heap e ++ (Task.data <$> l))%list
    /\ Task.map_data (heap_get (heap e0)) <$> l0 = l.
Proof.
  revert e. induction l as [|t l IH]; intros e.
  - exists [], e. repeat split; try done. by rewrite app_nil_r.
  - destruct (IH (set_heap (heap e ++ [Task.data t]) e))
      as (l0 & e0 & Hrun & (Hws & Hts & Hhs) & Hn & Hheap & Hmap).
    simpl in Hheap. rewrite <- app_assoc in Hheap.
    eexists _, e0. split; [|split; [|split; [|split]]].
    + simpl. unfold load_task at 1.
      rewrite bind_assoc. erewrite bind_Ok by reflexivity.
      erewrite bind_Ok by reflexivity.
      erewrite bind_Ok by exact Hrun. reflexivity.
    + by repeat split.
    + done.
    + done.
    + rewrite fmap_cons, Hmap. f_equal.
      destruct t. unfold Task.map_data. simpl. f_equal.
      unfold heap_get. rewrite Hheap.
      rewrite lookup_app_r by lia. by rewrite Nat.sub_diag.
Qed.

Lemma tasks_ids_map_data {D E} (f : D -> E) (l : list (Task.t D)) :
  tasks_ids (Task.map_data f <$> l) = tasks_ids l.
Proof.
  unfold tasks_ids. rewrite <- list_fmap_compose. f_equal.
Qed.

Lemma tasks_ids_set_dependencies {D} (g : Task.t D -> list string)
    (l : list (Task.t D)) :
  tasks_ids ((fun t => Task.set_dependencies (g t) t) <$> l) = tasks_ids l.
Proof.
  unfold tasks_ids. rewrite <- list_fmap_compose. f_equal.
Qed.

Lemma anonymous_map_data {D E} (f : D -> E) (t : Task.t D) :
  anonymous (Task.map_data f t) = Task.map_data f (anonymous t).
Proof. reflexivity. Qed.

Lemma anonymous_set_dependencies {D} (d : list string) (t : Task.t D) :
  anonymous (Task.set_dependencies d t) = anonymous t.
Proof. reflexivity. Qed.

(** What [import_workflow] does with a snapshot. *)
Lemma import_workflow_run (snapshot : Workflow.t dict) (e : Engine) :
  exists W' e' (id_mapping : gmap string string),
    import_workflow uuid4 snapshot e = Ok (Workflow.id W') e'
    /\ workflows e' = <[Workflow.id W' := W']> (workflows e)
    /\ Workflow.id W' = uuid4 (uuid_draws e)
    /\ Workflow.status W' = Workflow.status snapshot
    /\ Workflow.current_task_index W' = Workflow.current_task_index snapshot
    /\ anonymous <$> (Task.map_data (heap_get (heap e')) <$> Workflow.tasks W')
       = anonymous <$> Workflow.tasks snapshot
    /\ all_ids W' = uuid4 <$> seq (uuid_draws e) (length (all_ids snapshot))
    /\ Task.dependencies <$> Workflow.tasks W'
       = (fun t => omap (fun d => id_mapping !! d) (Task.dependencies t))
           <$> Workflow.tasks snapshot
    /\ renamed uuid4 (all_ids snapshot) (uuid_draws e) ∅ id_mapping
    /\ (NoDup (all_ids snapshot) ->
        Forall2 (fun t t' => id_mapping !! Task.id t = Some (Task.id t'))
          (Workflow.tasks snapshot) (Workflow.tasks W')).
Proof.
  unfold import_workflow.
  destruct (load_tasks_run (Workflow.tasks snapshot) e)
    as (l0 & e0 & Hrun0 & (Hws & Hts & Hhs) & Hn0 & Hheap & Hmap0).
  erewrite bind_Ok by exact Hrun0. cbv beta zeta.
  erewrite bind_Ok by reflexivity. cbv beta.
  set (n := uuid_draws e).
  set (m0 := {[Workflow.id snapshot := uuid4 (uuid_draws e0)]} : gmap string string).
  destruct (renew_tasks_run l0 m0 (tick e0))
    as (tasks1 & m' & Hrun1 & Hids1 & Hanon1 & Hdeps1 & Hren1 & Hfa1).
  erewrite bind_Ok by exact Hrun1. cbv beta. cbn [fst snd].
  erewrite bind_Ok by reflexivity. cbv beta.
  match goal with
  | |- context [set_workflows (<[?k := ?v]> (workflows ?e2)) ?e2] =>
      change (set_workflows (<[k := v]> (workflows e2)) e2) with (put_wf k v e2)
  end.
  exec. unfold ret.
  assert (tasks_ids l0 = tasks_ids (Workflow.tasks snapshot)) as Hl0.
  { by rewrite <- Hmap0, tasks_ids_map_data. }
  set (W' := append_event _ _).
  exists W'. eexists. exists m'.
  split; [reflexivity|].
  split; [by rewrite <- Hws|].
  split; [simpl; by rewrite Hn0|]. split; [done|]. split; [done|].
  split; [|split; [|split; [|split]]].
  - simpl. rewrite <- !list_fmap_compose.
    transitivity (Task.map_data (heap_get (heap e0)) <$> (anonymous <$> tasks1)).
    { by rewrite <- list_fmap_compose. }
    rewrite Hanon1, <- Hmap0. by rewrite <- !list_fmap_compose.
  - unfold all_ids. simpl. rewrite tasks_ids_set_dependencies.
    change (uuid_draws (tick e0)) with (S (uuid_draws e0)) in Hids1.
    rewrite Hids1, Hl0, Hn0. reflexivity.
  - simpl. rewrite <- list_fmap_compose.
    transitivity ((fun d => omap (fun x => m' !! x) d) <$> (Task.dependencies <$> tasks1)).
    { by rewrite <- list_fmap_compose. }
    rewrite Hdeps1, <- Hmap0. by rewrite <- !list_fmap_compose.
  - unfold all_ids.
    apply (renamed_app [Workflow.id snapshot] _ n ∅ m0 m').
    + unfold m0. rewrite Hn0. rewrite <- insert_empty. apply renamed_single.
    + rewrite <- Hl0.
      change (uuid_draws (tick e0)) with (S (uuid_draws e0)) in Hren1.
      rewrite Hn0 in Hren1. simpl. by rewrite Nat.add_1_r.
  - intros Hnd. unfold all_ids in Hnd. apply NoDup_cons in Hnd as [_ Hnd].
    rewrite <- Hl0 in Hnd. specialize (Hfa1 Hnd).
    simpl. rewrite <- Hmap0.
    apply Forall2_fmap. eapply Forall2_impl; [exact Hfa1|].
    intros t t' H. exact H.
Qed.

Lemma task_id_in_tasks_ids {D} (l : list (Task.t D)) k t :
  l !! k = Some t -> Task.id t ∈ tasks_ids l.
Proof.
  revert k. induction l as [|t0 l IH]; intros k Hk; [done|].
  rewrite tasks_ids_cons, elem_of_app. destruct k as [|k].
  - injection Hk as ->. left. by left.
  - right. by eapply IH.
Qed.

Lemma all_ids_map_data {D E} (f : D -> E) (w : Workflow.t D) :
  all_ids (Workflow.map_data f w) = all_ids w.
Proof. unfold all_ids. simpl. by rewrite tasks_ids_map_data. Qed.

Lemma renamed_inj olds n (m m' : gmap string string) x y v :
  Inj (=) (=) uuid4 ->
  renamed uuid4 olds n m m' ->
  x ∈ olds -> y ∈ olds ->
  m' !! x = Some v -> m' !! y = Some v -> x = y.
Proof.
  intros Hinj (_ & Hin & _) Hx Hy Hmx Hmy.
  destruct (Hin x Hx) as (kx & Hkx & Hvx).
  destruct (Hin y Hy) as (ky & Hky & Hvy).
  assert (uuid4 (n + kx) = uuid4 (n + ky)) as Heq by congruence.
  apply Hinj in Heq. assert (kx = ky) as -> by lia. congruence.
Qed.

Lemma renamed_dom olds n (m' : gmap string string) x :
  renamed uuid4 olds n ∅ m' -> is_Some (m' !! x) <-> x ∈ olds.
Proof.
  intros (Hout & Hin & _). split.
  - intros Hsome. destruct (decide (x ∈ olds)) as [|Hx]; [done|].
    rewrite (Hout x Hx), lookup_empty in Hsome. by destruct Hsome.
  - intros Hx. destruct (Hin x Hx) as (k & _ & ->). eauto.
Qed.

(** C9. Exporting a stored workflow [W] and importing the snapshot
    stores a new workflow [W'] under a newly drawn id.  [W'] has the
    tasks of [W] in the same order, up to their ids, the ids of their
    approvals and their dependencies (the task data are new
    dictionaries with the same content).  The id of [W'], its task ids
    and its approval ids are consecutive draws of [uuid4], one for each
    id of [W]: they are pairwise distinct when [uuid4] does not repeat
    itself, and disjoint from the ids of [W] when the draws avoid
    these.  The dependencies of each task are those of the task of [W]
    at the same position sent through the id-translation map, which is
    defined exactly on the ids of [W] (a dependency on any other id is
    dropped) and is injective.  When the ids of [W] are pairwise
    distinct, the map sends the id of each task to the id of the task
    of [W'] at the same position, so a task of [W'] depends on another
    exactly when their originals do.  [W] itself stays stored. *)
Theorem export_import_spec (e : Engine) (workflow_id : string)
    (W : Workflow.t loc) :
  workflows e !! workflow_id = Some W ->
  exists snapshot W' e' (id_mapping : gmap string string),
    export_workflow workflow_id e = Ok snapshot e
    /\ import_workflow uuid4 snapshot e = Ok (Workflow.id W') e'
    /\ workflows e' !! Workflow.id W' = Some W'
    /\ length (Workflow.tasks W') = length (Workflow.tasks W)
    /\ anonymous <$> (Task.map_data (heap_get (heap e')) <$> Workflow.tasks W')
       = anonymous <$> (Task.map_data (heap_get (heap e)) <$> Workflow.tasks W)
    /\ all_ids W' = uuid4 <$> seq (uuid_draws e) (length (all_ids W))
    /\ (Inj (=) (=) uuid4 -> NoDup (all_ids W'))
    /\ ((forall k, uuid_draws e <= k -> uuid4 k ∉ all_ids W) ->
        forall x, x ∈ all_ids W' -> x ∉ all_ids W)
    /\ (forall i t t',
          Workflow.tasks W !! i = Some t ->
          Workflow.tasks W' !! i = Some t' ->
          Task.dependencies t'
          = omap (fun d => id_mapping !! d) (Task.dependencies t))
    /\ (forall x, is_Some (id_mapping !! x) <-> x ∈ all_ids W)
    /\ (Inj (=) (=) uuid4 ->
        forall x y v,
          id_mapping !! x = Some v -> id_mapping !! y = Some v -> x = y)
    /\ (NoDup (all_ids W) ->
        forall i t t',
          Workflow.tasks W !! i = Some t ->
          Workflow.tasks W' !! i = Some t' ->
          id_mapping !! Task.id t = Some (Task.id t'))
    /\ (NoDup (all_ids W) ->
        Inj (=) (=) uuid4 ->
        forall i j ti tj ti' tj',
          Workflow.tasks W !! i = Some ti ->
          Workflow.tasks W !! j = Some tj ->
          Workflow.tasks W' !! i = Some ti' ->
          Workflow.tasks W' !! j = Some tj' ->
          Task.id tj ∈ Task.dependencies ti
          <-> Task.id tj' ∈ Task.dependencies ti')
    /\ ((forall k, uuid_draws e <= k -> uuid4 k <> workflow_id) ->
        workflows e' !! workflow_id = Some W).
Proof.
  intros Hw.
  set (snapshot := Workflow.map_data (heap_get (heap e)) W).
  destruct (import_workflow_run snapshot e)
    as (W' & e' & m & Hrun & Hws & Hid & _ & _ & Hanon & Hids & Hdeps & Hren & Hfa).
  assert (all_ids snapshot = all_ids W) as Hsnap by apply all_ids_map_data.
  rewrite Hsnap in Hids, Hren, Hfa.
  assert (forall i t t',
             Workflow.tasks W !! i = Some t ->
             Workflow.tasks W' !! i = Some t' ->
             Task.dependencies t'
             = omap (fun d => m !! d) (Task.dependencies t)) as Hdep.
  { intros i t t' Ht Ht'.
    apply (f_equal (fun l => l !! i)) in Hdeps.
    rewrite !list_lookup_fmap, Ht' in Hdeps. simpl in Hdeps.
    rewrite list_lookup_fmap, Ht in Hdeps. simpl in Hdeps. congruence. }
  assert (NoDup (all_ids W) ->
          forall i t t',
            Workflow.tasks W !! i = Some t ->
            Workflow.tasks W' !! i = Some t' ->
            m !! Task.id t = Some (Task.id t')) as Hmap.
  { intros Hnd i t t' Ht Ht'. specialize (Hfa Hnd).
    eapply (Forall2_lookup_lr _ _ _ i (Task.map_data (heap_get (heap e)) t) t')
      in Hfa; [exact Hfa| |done].
    simpl. by rewrite list_lookup_fmap, Ht. }
  assert (forall k t, Workflow.tasks W !! k = Some t -> Task.id t ∈ all_ids W)
    as Hin_ids.
  { intros k t Ht. unfold all_ids. right. by eapply task_id_in_tasks_ids. }
  exists snapshot, W', e', m.
  split.
  { unfold export_workflow. erewrite bind_Ok; cycle 1.
    { unfold lookup_workflow. by rewrite Hw. }
    reflexivity. }
  split; [done|].
  split; [rewrite Hws; apply lookup_insert_eq|].
  split.
  { apply (f_equal length) in Hanon. unfold snapshot in Hanon.
    simpl in Hanon. by rewrite !length_fmap in Hanon. }
  split; [exact Hanon|]. split; [done|].
  split; [intros Hinj; rewrite Hids; by apply draws_NoDup|].
  split.
  { intros Hfresh x Hx. rewrite Hids in Hx. by eapply draws_fresh. }
  split; [done|].
  split; [intros x; by eapply renamed_dom|].
  split.
  { intros Hinj x y v Hx Hy.
    eapply (renamed_inj _ _ _ _ x y v Hinj Hren); [| |done|done].
    - eapply renamed_dom; eauto.
    - eapply renamed_dom; eauto. }
  split; [done|].
  split.
  { intros Hnd Hinj i j ti tj ti' tj' Hi Hj Hi' Hj'.
    rewrite (Hdep i ti ti' Hi Hi'). rewrite list_elem_of_omap.
    pose proof (Hmap Hnd j tj tj' Hj Hj') as Hmj.
    split.
    - intros Hin. exists (Task.id tj). by split.
    - intros (d & Hd & Hmd).
      assert (d = Task.id tj) as <-; [|done].
      eapply (renamed_inj _ _ _ _ d (Task.id tj) _ Hinj Hren); [| |done|done].
      + eapply renamed_dom; eauto.
      + by eapply Hin_ids. }
  intros Hfresh. rewrite Hws. rewrite lookup_insert_ne; [done|].
  rewrite Hid. by apply Hfresh.
Qed.
End Renaming.

(** * The properties on the scenarios *)

Lemma uuid_of_inj : Inj (=) (=) uuid_of.
Proof.
  intros x y H. unfold uuid_of in H.
  apply String.app_inj in H. by apply pretty_nat_inj in H.
Qed.

(** Closes a decidable goal by evaluation. *)
Ltac by_evaluation :=
  match goal with
  | |- ?P => apply (bool_decide_unpack P); vm_compute; exact I
  end.

(** ** Rejection while another approval is pending *)

(** C1. In the review that waits for A and B, the task is in
    WAITING_APPROVAL and the approval of A is PENDING; when A rejects,
    the call returns normally, and neither the task nor the workflow is
    FAILED: the task is still in WAITING_APPROVAL and the workflow still
    RUNNING, with the approval of B PENDING. *)
Lemma rejection_with_pending_approval :
  workflows review_waiting !! "uuid-0" = Some review_workflow
  /\ find_task "uuid-1" (Workflow.tasks review_workflow) = Some (0, review_task)
  /\ Task.status review_task = TaskStatus.WAITING_APPROVAL
  /\ find_approval "uuid-2" (Task.approvals review_task) = Some (0, approval_A)
  /\ Approval.status approval_A = ApprovalStatus.PENDING
  /\ exists w e',
       approve_task uuid_of 3 "uuid-0" "uuid-1" "uuid-2" false "no" review_waiting
       = Ok w e'
       /\ workflows e' !! "uuid-0" = Some w
       /\ Workflow.status w = WorkflowStatus.RUNNING
       /\ Workflow.status w <> WorkflowStatus.FAILED
       /\ Task.status <$> Workflow.tasks w !! 0 = Some TaskStatus.WAITING_APPROVAL
       /\ Task.status <$> Workflow.tasks w !! 0 <> Some TaskStatus.FAILED.
Proof.
  repeat (split; [vm_compute; reflexivity|]).
  do 2 eexists. split; [vm_compute; reflexivity|].
  split; [vm_compute; reflexivity|].
  split; [vm_compute; reflexivity|].
  split; [vm_compute; discriminate|].
  split; [vm_compute; reflexivity|].
  vm_compute. discriminate.
Qed.

Lemma approve_task_rejection_witness :
  let approvals' :=
    <[0 := verdict false "no" approval_A]> (Task.approvals review_task) in
  exists w' e',
    approve_task uuid_of 3 "uuid-0" "uuid-1" "uuid-2" false "no" review_waiting
    = Ok w' e'
    /\ workflows e' !! "uuid-0" = Some w'
    /\ Workflow.current_task_index w'
       = Workflow.current_task_index review_workflow
    /\ if some_pending approvals' then
         Workflow.status w' = Workflow.status review_workflow
         /\ Workflow.tasks w'
            = <[0 := Task.set_approvals approvals' review_task]>
                (Workflow.tasks review_workflow)
         /\ Task.status (Task.set_approvals approvals' review_task)
            = TaskStatus.WAITING_APPROVAL
       else
         Workflow.status w' = WorkflowStatus.FAILED
         /\ Workflow.tasks w'
            = <[0 := Task.set_status TaskStatus.FAILED
                       (Task.set_approvals approvals' review_task)]>
                (Workflow.tasks review_workflow).
Proof.
  apply (approve_task_rejection uuid_of 3 review_waiting "uuid-0" "uuid-1" "uuid-2"
           "no" review_workflow 0 review_task 0 approval_A);
    vm_compute; reflexivity.
Defined.

(** ** Unanimous approval followed by an automatic task *)

(** C2. In the review that waits for A and B, the cursor is at the reviewed
    task (position 0) and A and B are its two live approvals.  After both
    have approved, the automatic task behind it has run within the second
    call, and the cursor is at 2: it has moved by two. *)
Lemma unanimous_approval_moves_cursor_by_two :
  Workflow.current_task_index review_workflow = 0
  /\ find_task "uuid-1" (Workflow.tasks review_workflow) = Some (0, review_task)
  /\ Task.status review_task = TaskStatus.WAITING_APPROVAL
  /\ Task.approvals review_task = [approval_A; approval_B]
  /\ Approval.status approval_A = ApprovalStatus.PENDING
  /\ Approval.status approval_B = ApprovalStatus.PENDING
  /\ exists w1 e1 w2 e2,
       approve_task uuid_of 3 "uuid-0" "uuid-1" "uuid-2" true "ok" review_waiting
       = Ok w1 e1
       /\ approve_task uuid_of 3 "uuid-0" "uuid-1" "uuid-3" true "ok" e1 = Ok w2 e2
       /\ workflows e2 !! "uuid-0" = Some w2
       /\ Workflow.current_task_index w2 = 2
       /\ Workflow.current_task_index w2
          <> Workflow.current_task_index review_workflow + 1.
Proof.
  repeat (split; [vm_compute; reflexivity|]).
  do 4 eexists. split; [vm_compute; reflexivity|].
  split; [vm_compute; reflexivity|].
  split; [vm_compute; reflexivity|].
  split; [vm_compute; reflexivity|].
  vm_compute. discriminate.
Qed.

Lemma approve_task_unanimous_witness :
  exists w1 e1,
    approve_task uuid_of 3 "uuid-0" "uuid-1" "uuid-2" true "ok" review_waiting
    = Ok w1 e1
    /\ workflows e1 !! "uuid-0" = Some w1
    /\ Workflow.current_task_index w1 = 0
    /\ (exists t1, Workflow.tasks w1 !! 0 = Some t1
                   /\ Task.status t1 = TaskStatus.WAITING_APPROVAL)
    /\ exists w2 e2,
         approve_task uuid_of 3 "uuid-0" "uuid-1" "uuid-3" true "ok" e1 = Ok w2 e2
         /\ workflows e2 !! "uuid-0" = Some w2
         /\ (exists t2, Workflow.tasks w2 !! 0 = Some t2
                        /\ Task.status t2 = TaskStatus.WAITING_APPROVAL)
         /\ (Workflow.current_task_index w2 = 0 + 1
             \/ (0 + 1 < Workflow.current_task_index w2
                 /\ exists next,
                      Workflow.tasks review_workflow !! (0 + 1) = Some next
                      /\ is_Some (task_handlers review_waiting !! Task.type next)
                      /\ Task.approvers next = [])).
Proof.
  apply (approve_task_unanimous uuid_of 3 review_waiting "uuid-0" "uuid-1"
           "uuid-2" "uuid-3" "ok" "ok" review_workflow 0 review_task
           0 1 approval_A approval_B).
  - vm_compute; reflexivity.
  - by_evaluation.
  - vm_compute; reflexivity.
  - vm_compute; reflexivity.
  - vm_compute; reflexivity.
  - vm_compute; reflexivity.
  - vm_compute; reflexivity.
  - lia.
  - vm_compute; reflexivity.
  - vm_compute; reflexivity.
  - intros [|[|k]] c Hk Ha Hb;
      [exfalso; apply Ha; reflexivity|exfalso; apply Hb; reflexivity|].
    vm_compute in Hk. discriminate.
  - vm_compute. lia.
Defined.

(** ** A dependency on a later task *)


(** In that workflow every task is PENDING, hence inert. *)
Lemma crossed_tasks_inert :
  forall t, t ∈ Workflow.tasks (workflow_of crossed_imported "uuid-0") -> inert t.
Proof.
  intros t Ht. apply list_elem_of_lookup in Ht as [k Hk].
  destruct k as [|[|k]]; vm_compute in Hk; [| |discriminate];
    injection Hk as <-; repeat split; vm_compute; discriminate.
Qed.

(** ** A handler that raises *)

Lemma execute_task_handler_raises_witness :
  exists w' e',
    _execute_task uuid_of 1 "uuid-0" "uuid-1" boom_created = Ok tt e'
    /\ workflows e' !! "uuid-0" = Some w'
    /\ Workflow.status w' = WorkflowStatus.FAILED
    /\ Workflow.tasks w'
       = <[0 := Task.set_status TaskStatus.FAILED (task_of boom_created "uuid-0" 0)]>
           (Workflow.tasks (workflow_of boom_created "uuid-0"))
    /\ Workflow.history w'
       = (Workflow.history (workflow_of boom_created "uuid-0")
          ++ [HistoryEvent.mk (uuid_of (uuid_draws boom_created)) "task_failed"
                [("workflow_id", VStr "uuid-0");
                 ("task_id", VStr "uuid-1");
                 ("task_name", VStr (Task.name (task_of boom_created "uuid-0" 0)));
                 ("reason", VStr "kaputt")];
              HistoryEvent.mk (uuid_of (S (uuid_draws boom_created))) "workflow_failed"
                [("workflow_id", VStr "uuid-0");
                 ("workflow_name",
                   VStr (Workflow.name (workflow_of boom_created "uuid-0")));
                 ("reason",
                   VStr ("Task fehlgeschlagen: "
                         +:+ Task.name (task_of boom_created "uuid-0" 0)))]])%list.
Proof.
  apply (execute_task_handler_raises uuid_of 1 boom_created "uuid-0" "uuid-1"
           (workflow_of boom_created "uuid-0") 0 (task_of boom_created "uuid-0" 0)
           handler_boom "kaputt");
    vm_compute; reflexivity.
Defined.

(** ** Delegation *)

Lemma delegate_approval_spec_witness :
  let a_old := Approval.mk (Approval.id approval_A) (Approval.approver approval_A)
                 ApprovalStatus.DELEGATED "on leave" in
  let a_new := Approval.mk (uuid_of (uuid_draws review_waiting)) "C"
                 ApprovalStatus.PENDING "" in
  let t' := Task.set_approvals
              (<[0 := a_old]> (Task.approvals review_task) ++ [a_new]) review_task in
  exists w' e',
    delegate_approval uuid_of "uuid-0" "uuid-1" "uuid-2" "C" "on leave" review_waiting
    = Ok w' e'
    /\ workflows e' !! "uuid-0" = Some w'
    /\ Workflow.tasks w' = <[0 := t']> (Workflow.tasks review_workflow)
    /\ Task.status t' = TaskStatus.WAITING_APPROVAL
    /\ Workflow.status w' = Workflow.status review_workflow
    /\ Workflow.current_task_index w' = Workflow.current_task_index review_workflow
    /\ (forall r,
          check_approvals (Task.approvals t') r
          = check_approvals
              (filter (fun x => Approval.status x <> ApprovalStatus.DELEGATED)
                 (Task.approvals t')) r).
Proof.
  pose proof (delegate_approval_spec uuid_of review_waiting "uuid-0" "uuid-1" "uuid-2"
                "C" "on leave" review_workflow 0 review_task 0 approval_A) as H.
  apply H; vm_compute; reflexivity.
Defined.

(** ** Cancellation *)

Lemma cancel_workflow_spec_witness :
  exists w' e',
    cancel_workflow uuid_of "uuid-0" "stop" review_waiting = Ok w' e'
    /\ workflows e' !! "uuid-0" = Some w'
    /\ Workflow.status w' = WorkflowStatus.CANCELLED
    /\ length (Workflow.tasks w') = length (Workflow.tasks review_workflow)
    /\ (forall i t,
          Workflow.tasks review_workflow !! i = Some t ->
          Workflow.tasks w' !! i
          = Some (if terminal_task (Task.status t) then t
                  else Task.set_status TaskStatus.CANCELLED t))
    /\ heap e' = heap review_waiting.
Proof.
  pose proof (cancel_workflow_spec uuid_of review_waiting "uuid-0" "stop"
                review_workflow) as H.
  apply H. vm_compute; reflexivity.
Defined.

(** ** Completion of a task with approvers *)


(** ** Instantiating the review template *)

Lemma create_workflow_spec_witness :
  exists w e',
    create_workflow uuid_of "review" VNone review_registered = Ok (Workflow.id w) e'
    /\ workflows e' !! Workflow.id w = Some w
    /\ workflow_templates e' = workflow_templates review_registered
    /\ Workflow.status w = WorkflowStatus.CREATED
    /\ Workflow.current_task_index w = 0
    /\ Forall2 made_from (default [] (WorkflowTemplate.tasks review_template))
          (Workflow.tasks w)
    /\ length (Workflow.tasks w)
       = length (default [] (WorkflowTemplate.tasks review_template))
    /\ all_ids w = uuid_of <$> seq (uuid_draws review_registered) (length (all_ids w))
    /\ (Inj (=) (=) uuid_of -> NoDup (all_ids w))
    /\ (forall used : list string,
          (forall k, uuid_draws review_registered <= k -> uuid_of k ∉ used) ->
          forall x, x ∈ all_ids w -> x ∉ used).
Proof.
  pose proof (create_workflow_spec uuid_of review_registered "review" VNone) as H.
  assert (workflow_templates review_registered !! "review" = Some review_template)
    as Hlookup by (vm_compute; reflexivity).
  rewrite Hlookup in H. exact H.
Defined.

(** ** Export and import of the review *)

Lemma export_import_spec_witness :
  exists snapshot W' e' (id_mapping : gmap string string),
    export_workflow "uuid-0" review_waiting = Ok snapshot review_waiting
    /\ import_workflow uuid_of snapshot review_waiting = Ok (Workflow.id W') e'
    /\ workflows e' !! Workflow.id W' = Some W'
    /\ length (Workflow.tasks W') = length (Workflow.tasks review_workflow)
    /\ anonymous <$> (Task.map_data (heap_get (heap e')) <$> Workflow.tasks W')
       = anonymous <$> (Task.map_data (heap_get (heap review_waiting))
                          <$> Workflow.tasks review_workflow)
    /\ all_ids W'
       = uuid_of <$> seq (uuid_draws review_waiting) (length (all_ids review_workflow))
    /\ (Inj (=) (=) uuid_of -> NoDup (all_ids W'))
    /\ ((forall k, uuid_draws review_waiting <= k ->
                   uuid_of k ∉ all_ids review_workflow) ->
        forall x, x ∈ all_ids W' -> x ∉ all_ids review_workflow)
    /\ (forall i t t',
          Workflow.tasks review_workflow !! i = Some t ->
          Workflow.tasks W' !! i = Some t' ->
          Task.dependencies t'
          = omap (fun d => id_mapping !! d) (Task.dependencies t))
    /\ (forall x, is_Some (id_mapping !! x) <-> x ∈ all_ids review_workflow)
    /\ (Inj (=) (=) uuid_of ->
        forall x y v,
          id_mapping !! x = Some v -> id_mapping !! y = Some v -> x = y)
    /\ (NoDup (all_ids review_workflow) ->
        forall i t t',
          Workflow.tasks review_workflow !! i = Some t ->
          Workflow.tasks W' !! i = Some t' ->
          id_mapping !! Task.id t = Some (Task.id t'))
    /\ (NoDup (all_ids review_workflow) ->
        Inj (=) (=) uuid_of ->
        forall i j ti tj ti' tj',
          Workflow.tasks review_workflow !! i = Some ti ->
          Workflow.tasks review_workflow !! j = Some tj ->
          Workflow.tasks W' !! i = Some ti' ->
          Workflow.tasks W' !! j = Some tj' ->
          Task.id tj ∈ Task.dependencies ti
          <-> Task.id tj' ∈ Task.dependencies ti')
    /\ ((forall k, uuid_draws review_waiting <= k -> uuid_of k <> "uuid-0") ->
        workflows e' !! "uuid-0" = Some review_workflow).
Proof.
  apply (export_import_spec uuid_of review_waiting "uuid-0" review_workflow).
  vm_compute; reflexivity.
Defined.

(** The ids of the review workflow are pairwise distinct. *)
Lemma review_ids_distinct : NoDup (all_ids review_workflow).
Proof. by_evaluation. Qed.

(** ** Input written into the data of a template *)

(** C4. [create_workflow] makes new tasks but hands each of them the data
    dictionary of its template task, so a later write to the data of a
    task of the workflow is a write to the template in the store.
    The form template is registered with an empty data dictionary for its
    task.  A workflow is made from it and started, and input is provided
    for its task: the call returns normally, the registered template is
    the same value, and yet the data of the template's task now hold the
    input, because the task of the workflow and the task of the template
    refer to one dictionary. *)
Lemma provide_input_writes_template_data :
  workflow_templates form_started !! "form" = Some form_template
  /\ template_task_data form_started "form" = [Some []]
  /\ Task.data (task_of form_started "uuid-0" 0) = 0
  /\ exists w e',
       provide_input uuid_of 3 "uuid-0" "uuid-1" (VDict [("x", VInt 1)]) form_started
       = Ok w e'
       /\ workflow_templates e' !! "form" = Some form_template
       /\ template_task_data e' "form" = [Some [("input", VDict [("x", VInt 1)])]]
       /\ template_task_data e' "form" <> template_task_data form_started "form".
Proof.
  repeat (split; [vm_compute; reflexivity|]).
  do 2 eexists. split; [vm_compute; reflexivity|].
  split; [vm_compute; reflexivity|].
  split; [vm_compute; reflexivity|].
  vm_compute. discriminate.
Qed.
